(** * Reddit persona generator: a shallow embedding of [persona_generator.py]

    The program reads a profile URL, extracts the user name, fetches the
    user's newest submissions and comments, serialises them into a prompt
    for a completion API and writes the answer to a file.

    Python [str] values are modelled as [string], one [ascii] per character
    (code points below 256); [len] is [String.length] and a slice [s[:n]] is
    [Str.take n s].  Printing, network requests and the file system are
    modelled by explicit state passing; [sys.exit] is an early-exit result
    threaded through a small monad.  The outside world of a run (environment
    variables, the line typed, the platform's listings, the completion API
    and the disk) is a parameter of the program. *)

From Stdlib Require Import List Bool Arith ZArith Lia.
From Stdlib Require Import Strings.Ascii Strings.String Numbers.DecimalString.
Import ListNotations.

Open Scope string_scope.
Set Warnings "-abstract-large-number".

(** ** Python string primitives *)

Module Str.

(** [s[:n]] *)
Fixpoint take (n : nat) (s : string) : string :=
  match n, s with
  | O, _ => ""
  | S _, "" => ""
  | S n', String c s' => String c (take n' s')
  end.

(** [str(n)] for a non-negative integer, and the [{n}] of an f-string. *)
Definition of_nat (n : nat) : string :=
  NilEmpty.string_of_uint (Nat.to_uint n).

(** The characters [str.isspace] accepts among the code points below 256. *)
Definition isspace (c : ascii) : bool :=
  let n := nat_of_ascii c in
  (((9 <=? n) && (n <=? 13)) || ((28 <=? n) && (n <=? 32))
   || (n =? 133) || (n =? 160))%nat.

Fixpoint lstrip (s : string) : string :=
  match s with
  | "" => ""
  | String c s' => if isspace c then lstrip s' else s
  end.

(** Removes trailing white space: a character stays when something that is
    kept follows it, or when it is not white space itself. *)
Fixpoint rstrip (s : string) : string :=
  match s with
  | "" => ""
  | String c s' =>
      match rstrip s' with
      | "" => if isspace c then "" else String c ""
      | r => String c r
      end
  end.

(** [s.strip()] *)
Definition strip (s : string) : string := rstrip (lstrip s).

(** Matches the literal [p] at the start of [s]; the remainder on success. *)
Fixpoint strip_prefix (p s : string) : option string :=
  match p, s with
  | "", _ => Some s
  | String _ _, "" => None
  | String a p', String b s' =>
      if Ascii.eqb a b then strip_prefix p' s' else None
  end.

Definition is_slash (c : ascii) : bool := Ascii.eqb c "/".

(** The longest prefix free of ["/"]: what a greedy [[^\/]*] consumes. *)
Fixpoint run_nonslash (s : string) : string :=
  match s with
  | "" => ""
  | String c s' => if is_slash c then "" else String c (run_nonslash s')
  end.

Fixpoint slash_free (s : string) : bool :=
  match s with
  | "" => true
  | String c s' => negb (is_slash c) && slash_free s'
  end.

End Str.

(** ** Data model *)

(** What the platform's client library hands over for one submission and for
    one comment: the attributes [get_user_data] reads. *)
Record Submission := {
  submission_id : string;
  submission_permalink : string;
  submission_title : string;
  submission_selftext : string;
  submission_is_self : bool
}.

Record RedditComment := {
  rcomment_id : string;
  rcomment_permalink : string;
  rcomment_body : string
}.

(** The dictionaries [get_user_data] builds, one record field per key. *)
Record Post := {
  post_id : string;
  post_url : string;
  post_title : string;
  post_selftext : string
}.

Record Comment := {
  comment_id : string;
  comment_url : string;
  comment_body : string
}.

(** Advancing a listing generator either yields an item or raises an
    [Exception] (carrying its message); running off the end of the upstream
    list is [StopIteration]. *)
Inductive yield (A : Type) : Type :=
| Item (a : A)
| Raise (e : string).
Arguments Item {A} a.
Arguments Raise {A} e.

(** Modelled from the spec: the listing generator of the platform's client
    library, [redditor.submissions.new(limit=limit)] and
    [redditor.comments.new(limit=limit)], which is not code of this
    repository.  The specification describes "a single bounded fetch per
    content type", "bounded by a limit parameter": driven to its end, the
    generator stops once [limit] items have been yielded, without advancing
    upstream any further, and a failing request surfaces as an exception
    where the loop advances it. *)
Fixpoint listing_new {A : Type} (limit : nat) (upstream : list (yield A))
  : list A * option string :=
  match limit, upstream with
  | O, _ => ([], None)
  | S _, [] => ([], None)
  | S n, Item a :: rest =>
      let (xs, e) := listing_new n rest in (a :: xs, e)
  | S _, Raise e :: _ => ([], Some e)
  end.

(** Result of [openai.ChatCompletion.create] followed by the lookup of the
    message content. *)
Inductive completion : Type :=
| Content (text : string)
| OpenAIError (e : string)
| OtherException (e : string).

(** Outcome of opening a file for writing and writing to it: on [IOError]
    the file is left as [damage] says ([None]: untouched).  Exceptions that
    [save_persona] does not catch ([ValueError], [UnicodeEncodeError]) are
    outside the model, as is [EOFError] from [input]. *)
Inductive io_outcome : Type :=
| IoOk
| IoError (e : string) (damage : option (option string)).

(** The four module-level constants read with [os.getenv]. *)
Record Environ := {
  REDDIT_CLIENT_ID : option string;
  REDDIT_CLIENT_SECRET : option string;
  REDDIT_USER_AGENT : option string;
  OPENAI_API_KEY : option string
}.

(** Python truth value of an optional string: [None] and [""] are false. *)
Definition truthy (v : option string) : bool :=
  match v with
  | Some (String _ _) => true
  | _ => false
  end.

(** ** Program state and the exit monad *)

Inductive listing_kind : Type := Submissions | Comments.

Inductive request : Type :=
| ListingRequest (kind : listing_kind) (username : string) (limit : nat)
| CompletionRequest (prompt : string).

Definition filesystem := string -> option string.

Record state := {
  stdout : list string;
  requests : list request;
  files : filesystem
}.

Definition initial (fs : filesystem) : state :=
  {| stdout := []; requests := []; files := fs |}.

Inductive result (A : Type) : Type :=
| Return (a : A)
| SysExit (code : Z).
Arguments Return {A} a.
Arguments SysExit {A} code.

Definition prog (A : Type) : Type := state -> result A * state.

Definition ret {A : Type} (a : A) : prog A := fun st => (Return a, st).

Definition bind {A B : Type} (m : prog A) (k : A -> prog B) : prog B :=
  fun st =>
    match m st with
    | (Return a, st') => k a st'
    | (SysExit c, st') => (SysExit c, st')
    end.

Notation "x <- m ;; k" := (bind m (fun x => k))
  (at level 61, m at next level, right associativity).
Notation "m ;;; k" := (bind m (fun _ => k))
  (at level 61, right associativity).

(** The state after [lines] have been written to standard output. *)
Definition printed (lines : list string) (st : state) : state :=
  {| stdout := stdout st ++ lines;
     requests := requests st;
     files := files st |}.

Definition print (line : string) : prog unit :=
  fun st => (Return tt, printed [line] st).

Definition sys_exit {A : Type} (code : Z) : prog A :=
  fun st => (SysExit code, st).

(** The state after the requests [rs] have gone out to the network. *)
Definition sent (rs : list request) (st : state) : state :=
  {| stdout := stdout st;
     requests := requests st ++ rs;
     files := files st |}.

Definition send (r : request) : prog unit :=
  fun st => (Return tt, sent [r] st).

Definition set_file (name : string) (content : option string) : prog unit :=
  fun st => (Return tt,
             {| stdout := stdout st;
                requests := requests st;
                files := fun n => if String.eqb n name then content
                                  else files st n |}).

(** Status the process ends with: the argument of [sys.exit], or 0 when
    [main] returns. *)
Definition exit_status {A : Type} (r : result A) : Z :=
  match r with
  | Return _ => 0
  | SysExit c => c
  end.

Definition nl : string := String "010" "".

Definition prompt : string :=
"Based on the following Reddit posts and comments, generate a detailed user persona.
    The persona should include categories such as:
    - **Interests**: What are their hobbies, passions, and topics they engage with?
    - **Values**: What principles or beliefs seem important to them?
    - **Tone/Communication Style**: How do they typically express themselves (e.g., formal, casual, humorous, sarcastic, critical)?
    - **Personality Traits**: What adjectives describe their general demeanor (e.g., empathetic, analytical, cynical, enthusiastic)?
    - **Potential Political Views**: Are there any indications of political leanings or social stances?

    For EACH characteristic identified, you MUST cite the exact Reddit post or comment content that directly supports your inference.
    Cite by including the full text of the supporting content, clearly marked with its type ([POST] or [COMMENT]) and its unique URL.

    Example of desired output format:
    **Interests:**
    - Enjoys video games, especially RPGs. [Cite: [POST] URL: https://www.reddit.com/r/gaming/comments/... Title: My favorite RPGs Body: I spend hours playing The Witcher 3 and Elden Ring...]
    - Has a strong interest in technology and AI. [Cite: [COMMENT] URL: https://www.reddit.com/r/technology/comments/... Body: AI advancements are truly fascinating, especially in natural language processing.]

    **Values:**
    - Values intellectual honesty and critical thinking. [Cite: [COMMENT] URL: https://www.reddit.com/r/science/comments/... Body: It's important to base opinions on scientific evidence, not just anecdotal experiences.]

    --- Reddit User Data for Analysis ---
    ".

(** ** The program *)

(** [re.search(r'reddit\.com\/user\/([^\/]+)', s)]: group 1 of the match
    anchored at the start of [s], when there is one. *)
Definition match_here (s : string) : option string :=
  match Str.strip_prefix "reddit.com/user/" s with
  | Some r =>
      match Str.run_nonslash r with
      | "" => None
      | g => Some g
      end
  | None => None
  end.

(** The search tries every start position from the left. *)
Fixpoint re_search (s : string) : option string :=
  match match_here s with
  | Some g => Some g
  | None =>
      match s with
      | "" => None
      | String _ s' => re_search s'
      end
  end.

Definition extract_username (profile_url : string) : option string :=
  re_search profile_url.

Definition post_of_submission (submission : Submission) : Post :=
  {| post_id := submission_id submission;
     post_url := "https://www.reddit.com" ++ submission_permalink submission;
     post_title := submission_title submission;
     post_selftext := if submission_is_self submission
                      then submission_selftext submission
                      else "[Link Post]" |}.

Definition comment_of_rcomment (comment : RedditComment) : Comment :=
  {| comment_id := rcomment_id comment;
     comment_url := "https://www.reddit.com" ++ rcomment_permalink comment;
     comment_body := rcomment_body comment |}.

Definition post_block (p : Post) : string :=
  "[POST] URL: " ++ post_url p ++ nl ++
  "Title: " ++ post_title p ++ nl ++
  "Body: " ++ post_selftext p ++ nl ++ nl.

Definition comment_block (c : Comment) : string :=
  "[COMMENT] URL: " ++ comment_url c ++ nl ++
  "Body: " ++ comment_body c ++ nl ++ nl.

(** [content_for_llm] before truncation: the two accumulation loops. *)
Definition serialize (posts : list Post) (comments : list Comment) : string :=
  fold_left (fun acc c => acc ++ comment_block c) comments
    (fold_left (fun acc p => acc ++ post_block p) posts "").

Definition max_input_length : nat := 15000.

Definition truncation_warning (n : nat) : string :=
  "Warning: Reddit data truncated from " ++ Str.of_nat n ++ " to " ++
  Str.of_nat max_input_length ++ " characters to fit LLM context.".

(** [content_for_llm] as it is appended to the prompt. *)
Definition content_for_llm (posts : list Post) (comments : list Comment)
  : string :=
  let content := serialize posts comments in
  if (max_input_length <? String.length content)%nat
  then Str.take max_input_length content
  else content.

Section Program.

(** The outside world of one run. *)
Variable environ : Environ.
Variable stdin : string.
Variable submissions_upstream : string -> list (yield Submission).
Variable comments_upstream : string -> list (yield RedditComment).
Variable ChatCompletion_create : string -> completion.
Variable open_write : string -> string -> io_outcome.

(** Modelled from the spec: the network side of the client library, which
    is not code of this repository.  One event stands for everything the
    library sends to read one listing (token, pages): it is logged where the
    loop starts to advance the listing, the first point at which the library
    can reach the network; with a limit of 0 the generator stops at once and
    no event is logged.  The log tells which listings were asked for, and
    in which order relative to the completion request, not how many HTTP
    requests went out. *)
Definition fetch_listing (kind : listing_kind) (username : string)
    (limit : nat) : prog unit :=
  match limit with
  | O => ret tt
  | S _ => send (ListingRequest kind username limit)
  end.

Definition fetch_failed (e : string) : prog (list Post * list Comment) :=
  print ("An error occurred while fetching Reddit data: " ++ e) ;;;
  print "This might be due to an invalid username, API rate limits, or incorrect credentials." ;;;
  ret ([], []).

Definition get_user_data (username : string) (limit : nat)
  : prog (list Post * list Comment) :=
  if negb (forallb truthy [REDDIT_CLIENT_ID environ;
                           REDDIT_CLIENT_SECRET environ;
                           REDDIT_USER_AGENT environ])
  then
    print "Error: Reddit API credentials not found in environment variables. Please set them in your .env file." ;;;
    sys_exit 1
  else
    print ("Attempting to fetch data for u/" ++ username ++ "...") ;;;
    fetch_listing Submissions username limit ;;;
    match listing_new limit (submissions_upstream username) with
    | (_, Some e) => fetch_failed e
    | (submissions, None) =>
        let posts := map post_of_submission submissions in
        print ("Fetched " ++ Str.of_nat (List.length posts) ++ " posts.") ;;;
        fetch_listing Comments username limit ;;;
        match listing_new limit (comments_upstream username) with
        | (_, Some e) => fetch_failed e
        | (rcomments, None) =>
            let comments := map comment_of_rcomment rcomments in
            print ("Fetched " ++ Str.of_nat (List.length comments)
                   ++ " comments.") ;;;
            ret (posts, comments)
        end
    end.

Definition generate_persona (posts : list Post) (comments : list Comment)
  : prog string :=
  if negb (truthy (OPENAI_API_KEY environ))
  then
    print "Error: OpenAI API key not found in environment variables. Please set it in your .env file." ;;;
    sys_exit 1
  else
    let content := serialize posts comments in
    (if (max_input_length <? String.length content)%nat
     then print (truncation_warning (String.length content))
     else ret tt) ;;;
    let full_prompt := prompt ++ content_for_llm posts comments in
    send (CompletionRequest full_prompt) ;;;
    match ChatCompletion_create full_prompt with
    | Content text => ret text
    | OpenAIError e =>
        print ("An error occurred with the OpenAI API: " ++ e) ;;;
        print "Please check your API key, subscription status, and try again." ;;;
        sys_exit 1
    | OtherException e =>
        print ("An unexpected error occurred during persona generation: " ++ e) ;;;
        sys_exit 1
    end.

Definition save_persona (username persona_text : string) : prog unit :=
  let filename := username ++ "_persona.txt" in
  match open_write filename persona_text with
  | IoOk =>
      set_file filename (Some persona_text) ;;;
      print ("Persona successfully saved to " ++ filename)
  | IoError e damage =>
      match damage with
      | Some content => set_file filename content
      | None => ret tt
      end ;;;
      print ("Error saving persona to file " ++ filename ++ ": " ++ e) ;;;
      sys_exit 1
  end.

Definition main : prog unit :=
  print "--- Reddit User Persona Generator ---" ;;;
  print "Enter Reddit profile URL (e.g., https://www.reddit.com/user/kojied/): " ;;;
  let url := Str.strip stdin in
  match extract_username url with
  | Some (String _ _ as username) =>
      print (nl ++ "--- Processing u/" ++ username ++ " ---") ;;;
      data <- get_user_data username 50 ;;
      let (posts, comments) := data in
      match posts, comments with
      | [], [] =>
          print ("No posts or comments found for u/" ++ username ++ " or an error occurred during fetching. Cannot generate persona.") ;;;
          sys_exit 0
      | _, _ =>
          print (nl ++ "--- Generating User Persona (This may take a moment) ---") ;;;
          persona <- generate_persona posts comments ;;
          match persona with
          | "" => print "Failed to generate persona."
          | _ => save_persona username persona
          end
      end
  | _ =>
      print "Invalid Reddit URL. Please ensure it's in the format https://www.reddit.com/user/username/" ;;;
      sys_exit 1
  end.

End Program.

(** ** Vocabulary of the specification *)

(** The text after a name: nothing, or something that starts with a slash,
    so that the name is a maximal run of non-slash characters. *)
Definition run_ends (rest : string) : Prop :=
  rest = "" \/ exists r, rest = String "/" r.

(** [s] contains the segment [reddit.com/user/<name>] right after [pre]. *)
Definition user_segment (s pre name rest : string) : Prop :=
  s = pre ++ "reddit.com/user/" ++ name ++ rest
  /\ name <> ""
  /\ Str.slash_free name = true
  /\ run_ends rest.

Definition has_user_segment (s : string) : Prop :=
  exists pre name rest, user_segment s pre name rest.

Definition credentials_present (environ : Environ) : Prop :=
  truthy (REDDIT_CLIENT_ID environ) = true
  /\ truthy (REDDIT_CLIENT_SECRET environ) = true
  /\ truthy (REDDIT_USER_AGENT environ) = true.

(** What the two loops collect, or two empty lists when one of them raised. *)
Definition fetched (submissions_upstream : string -> list (yield Submission))
    (comments_upstream : string -> list (yield RedditComment))
    (username : string) (limit : nat) : list Post * list Comment :=
  match listing_new limit (submissions_upstream username),
        listing_new limit (comments_upstream username) with
  | (submissions, None), (rcomments, None) =>
      (map post_of_submission submissions, map comment_of_rcomment rcomments)
  | _, _ => ([], [])
  end.

(** Every request the fetcher sends is a listing request. *)
Definition listing_requests (rs : list request) : Prop :=
  Forall (fun r => exists kind username limit,
                     r = ListingRequest kind username limit) rs.

(** The post [p] is the record of [submission]: id, absolute permalink and
    title, and as body the placeholder for a link submission, the self-text
    for a self submission. *)
Definition records_submission (submission : Submission) (p : Post) : Prop :=
  post_id p = submission_id submission
  /\ post_url p = "https://www.reddit.com" ++ submission_permalink submission
  /\ post_title p = submission_title submission
  /\ (submission_is_self submission = false ->
      post_selftext p = "[Link Post]")
  /\ (submission_is_self submission = true ->
      post_selftext p = submission_selftext submission).

(** The fetch step raises [e]: in the submissions loop, or, that one
    completed, in the comments loop. *)
Definition fetch_raises (submissions_upstream : string -> list (yield Submission))
    (comments_upstream : string -> list (yield RedditComment))
    (username : string) (limit : nat) (e : string) : Prop :=
  snd (listing_new limit (submissions_upstream username)) = Some e
  \/ (snd (listing_new limit (submissions_upstream username)) = None
      /\ snd (listing_new limit (comments_upstream username)) = Some e).

(** The state in which [main] calls [get_user_data]. *)
Definition started (username : string) (st : state) : state :=
  printed [nl ++ "--- Processing u/" ++ username ++ " ---"]
    (printed ["Enter Reddit profile URL (e.g., https://www.reddit.com/user/kojied/): "]
       (printed ["--- Reddit User Persona Generator ---"] st)).

Definition no_data_message (username : string) : string :=
  "No posts or comments found for u/" ++ username ++ " or an error occurred during fetching. Cannot generate persona.".

(** The state in which [main] calls [generate_persona]. *)
Definition generating (st : state) : state :=
  printed [nl ++ "--- Generating User Persona (This may take a moment) ---"] st.

(** The state in which [generate_persona] calls the completion API. *)
Definition requested (posts : list Post) (comments : list Comment)
    (st : state) : state :=
  sent [CompletionRequest (prompt ++ content_for_llm posts comments)]
    (if (max_input_length <? String.length (serialize posts comments))%nat
     then printed [truncation_warning
                     (String.length (serialize posts comments))] st
     else st).

Definition persona_file (username : string) : string :=
  username ++ "_persona.txt".

Definition no_data (data : list Post * list Comment) : bool :=
  match data with
  | ([], []) => true
  | _ => false
  end.

(** [st'] shows the output of [st] followed by further lines. *)
Definition prints_after (st st' : state) : Prop :=
  exists lines, stdout st' = (stdout st ++ lines)%list.

(** The credential test of [get_user_data] as a boolean. *)
Definition has_credentials (environ : Environ) : bool :=
  forallb truthy [REDDIT_CLIENT_ID environ;
                  REDDIT_CLIENT_SECRET environ;
                  REDDIT_USER_AGENT environ].

(** How a run ends, told stage by stage as the specification does: the edge
    taken out of [Start], [Fetched], the generator and the writer, with the
    status of each. *)
Definition outcome (environ : Environ) (stdin : string)
    (submissions_upstream : string -> list (yield Submission))
    (comments_upstream : string -> list (yield RedditComment))
    (ChatCompletion_create : string -> completion)
    (open_write : string -> string -> io_outcome) : result unit :=
  match extract_username (Str.strip stdin) with
  | None => SysExit 1
  | Some username =>
      if negb (has_credentials environ) then SysExit 1
      else
        let (posts, comments) :=
          fetched submissions_upstream comments_upstream username 50 in
        if no_data (posts, comments) then SysExit 0
        else if negb (truthy (OPENAI_API_KEY environ)) then SysExit 1
        else
          match ChatCompletion_create
                  (prompt ++ content_for_llm posts comments) with
          | Content "" => Return tt
          | Content persona =>
              match open_write (persona_file username) persona with
              | IoOk => Return tt
              | IoError _ _ => SysExit 1
              end
          | OpenAIError _ => SysExit 1
          | OtherException _ => SysExit 1
          end
  end.

(** How the run started in [st] ends: [main] returned, or [sys.exit] was
    called with a status. *)
Definition ending (environ : Environ) (stdin : string)
    (submissions_upstream : string -> list (yield Submission))
    (comments_upstream : string -> list (yield RedditComment))
    (ChatCompletion_create : string -> completion)
    (open_write : string -> string -> io_outcome) (st : state)
  : result unit :=
  fst (main environ stdin submissions_upstream comments_upstream
         ChatCompletion_create open_write st).

(** The requests that have gone out when the run started in [st] ends. *)
Definition traffic (environ : Environ) (stdin : string)
    (submissions_upstream : string -> list (yield Submission))
    (comments_upstream : string -> list (yield RedditComment))
    (ChatCompletion_create : string -> completion)
    (open_write : string -> string -> io_outcome) (st : state)
  : list request :=
  requests (snd (main environ stdin submissions_upstream comments_upstream
                   ChatCompletion_create open_write st)).

(** [s] consists of white space only. *)
Fixpoint all_space (s : string) : bool :=
  match s with
  | "" => true
  | String c s' => Str.isspace c && all_space s'
  end.

(** The comment [c] is the record of [comment]: id, absolute permalink and
    body. *)
Definition records_comment (comment : RedditComment) (c : Comment) : Prop :=
  comment_id c = rcomment_id comment
  /\ comment_url c = "https://www.reddit.com" ++ rcomment_permalink comment
  /\ comment_body c = rcomment_body comment.

(** The two lines [get_user_data] prints when the fetch raised [e]. *)
Definition fetch_diagnostic (e : string) : list string :=
  ["An error occurred while fetching Reddit data: " ++ e;
   "This might be due to an invalid username, API rate limits, or incorrect credentials."].

(** The strings of a list written one after the other. *)
Fixpoint joined (parts : list string) : string :=
  match parts with
  | [] => ""
  | part :: rest => part ++ joined rest
  end.

(** [s[n:]] *)
Fixpoint drop (n : nat) (s : string) : string :=
  match n, s with
  | O, _ => s
  | S _, "" => ""
  | S n', String _ s' => drop n' s'
  end.

(** ** Scenarios *)

Module Scenario.

Definition configured : Environ :=
  {| REDDIT_CLIENT_ID := Some "client-id";
     REDDIT_CLIENT_SECRET := Some "client-secret";
     REDDIT_USER_AGENT := Some "persona-script";
     OPENAI_API_KEY := Some "sk-key" |}.

Definition no_completion_key : Environ :=
  {| REDDIT_CLIENT_ID := Some "client-id";
     REDDIT_CLIENT_SECRET := Some "client-secret";
     REDDIT_USER_AGENT := Some "persona-script";
     OPENAI_API_KEY := None |}.

Definition no_client_secret : Environ :=
  {| REDDIT_CLIENT_ID := Some "client-id";
     REDDIT_CLIENT_SECRET := None;
     REDDIT_USER_AGENT := Some "persona-script";
     OPENAI_API_KEY := Some "sk-key" |}.

Definition blank_client_id : Environ :=
  {| REDDIT_CLIENT_ID := Some "";
     REDDIT_CLIENT_SECRET := Some "client-secret";
     REDDIT_USER_AGENT := Some "persona-script";
     OPENAI_API_KEY := Some "" |}.

Definition text_post : Submission :=
  {| submission_id := "1abc";
     submission_permalink := "/r/rust/comments/1abc/borrow_checker/";
     submission_title := "Borrow checker";
     submission_selftext := "It finally clicked.";
     submission_is_self := true |}.

Definition link_post : Submission :=
  {| submission_id := "2def";
     submission_permalink := "/r/news/comments/2def/headline/";
     submission_title := "Headline";
     submission_selftext := "";
     submission_is_self := false |}.

(** A link submission that carries text of its own. *)
Definition captioned_link : Submission :=
  {| submission_id := "4jkl";
     submission_permalink := "/r/pics/comments/4jkl/sunset/";
     submission_title := "Sunset";
     submission_selftext := "hidden text";
     submission_is_self := false |}.

Definition all_kinds (_ : string) : list (yield Submission) :=
  [Item text_post; Item link_post; Item captioned_link].

Definition reply : RedditComment :=
  {| rcomment_id := "c9";
     rcomment_permalink := "/r/rust/comments/1abc/borrow_checker/c9/";
     rcomment_body := "Agreed." |}.

Definition submissions (_ : string) : list (yield Submission) :=
  [Item text_post; Item link_post].

Definition comments (_ : string) : list (yield RedditComment) :=
  [Item reply].

(** A backend that fails on the first request. *)
Definition broken {A : Type} (_ : string) : list (yield A) :=
  [Raise "received 404 HTTP response"].

Definition nothing {A : Type} (_ : string) : list (yield A) := [].

Definition persona_api (_ : string) : completion := Content "PERSONA_TEXT".

Definition silent_api (_ : string) : completion := Content "".

Definition writable (_ _ : string) : io_outcome := IoOk.

Definition empty_disk : filesystem := fun _ => None.

Definition profile : string := "https://www.reddit.com/user/kojied/".

Fixpoint filler (n : nat) : string :=
  match n with
  | O => ""
  | S n' => String "a" (filler n')
  end.

Definition long_post : Submission :=
  {| submission_id := "3ghi";
     submission_permalink := "/r/books/comments/3ghi/essay/";
     submission_title := "Essay";
     submission_selftext := filler 16000;
     submission_is_self := true |}.

End Scenario.

(** * Properties *)

(** ** Strings *)

Module StrFacts.
Import Str.

Lemma append_nil_r (s : string) : s ++ "" = s.
Proof. induction s as [|c s IH]; simpl; [reflexivity | now rewrite IH]. Qed.

Lemma append_assoc (a b c : string) : (a ++ b) ++ c = a ++ (b ++ c).
Proof. induction a as [|x a IH]; simpl; [reflexivity | now rewrite IH]. Qed.

Lemma length_append (a b : string) :
  String.length (a ++ b) = String.length a + String.length b.
Proof. induction a as [|x a IH]; simpl; [reflexivity | now rewrite IH]. Qed.

Lemma length_take (n : nat) (s : string) :
  String.length (take n s) = Nat.min n (String.length s).
Proof.
  revert s; induction n as [|n IH]; intros [|c s]; simpl; try reflexivity.
  now rewrite IH.
Qed.

Lemma take_all (n : nat) (s : string) :
  String.length s <= n -> take n s = s.
Proof.
  revert s; induction n as [|n IH]; intros [|c s]; simpl; intros H;
    try reflexivity; try lia.
  rewrite IH by lia; reflexivity.
Qed.

Lemma strip_prefix_append (p r : string) : strip_prefix p (p ++ r) = Some r.
Proof.
  induction p as [|a p IH]; simpl; [reflexivity|].
  now rewrite Ascii.eqb_refl.
Qed.

Lemma strip_prefix_inv (p s r : string) :
  strip_prefix p s = Some r -> s = p ++ r.
Proof.
  revert s; induction p as [|a p IH]; intros s; simpl.
  - now intros [= ->].
  - destruct s as [|b s]; [discriminate|].
    destruct (Ascii.eqb_spec a b) as [->|]; [|discriminate].
    intros H; now rewrite (IH _ H).
Qed.

Lemma append_inj_l (p a b : string) : p ++ a = p ++ b -> a = b.
Proof. induction p as [|c p IH]; simpl; [easy | intros [= H]; auto]. Qed.

(** Two prefixes of one string that have the same length are the same. *)
Lemma append_eq_length (a b c d : string) :
  a ++ b = c ++ d -> String.length a = String.length c -> a = c /\ b = d.
Proof.
  revert c; induction a as [|x a IH]; intros [|y c]; simpl; try easy.
  intros [= -> H] [= L]. destruct (IH _ H L) as [-> ->]; auto.
Qed.

End StrFacts.

(** ** The identifier extractor *)

Lemma run_nonslash_segment (name rest : string) :
  Str.slash_free name = true -> run_ends rest ->
  Str.run_nonslash (name ++ rest) = name.
Proof.
  intros Hn Hr. induction name as [|c name IH]; simpl in *.
  - destruct Hr as [->|[r ->]]; reflexivity.
  - apply andb_true_iff in Hn as [Hc Hn].
    apply negb_true_iff in Hc. rewrite Hc, IH by assumption. reflexivity.
Qed.

Lemma run_nonslash_split (s : string) :
  exists rest, s = Str.run_nonslash s ++ rest
               /\ run_ends rest
               /\ Str.slash_free (Str.run_nonslash s) = true.
Proof.
  induction s as [|c s (rest & E & R & F)]; simpl.
  - exists ""; repeat split; now left.
  - destruct (Str.is_slash c) eqn:Hc.
    + exists (String c s). repeat split. right.
      apply Ascii.eqb_eq in Hc as ->. now exists s.
    + exists rest; simpl. rewrite Hc, F, <- E. auto.
Qed.

Lemma match_here_segment (s name rest : string) :
  user_segment s "" name rest -> match_here s = Some name.
Proof.
  intros (-> & Hne & Hf & Hr). unfold match_here.
  change ("" ++ "reddit.com/user/" ++ name ++ rest)
    with ("reddit.com/user/" ++ (name ++ rest)).
  rewrite StrFacts.strip_prefix_append, run_nonslash_segment by assumption.
  destruct name; congruence.
Qed.

Lemma match_here_some (s g : string) :
  match_here s = Some g -> exists rest, user_segment s "" g rest.
Proof.
  unfold match_here.
  destruct (Str.strip_prefix "reddit.com/user/" s) as [r|] eqn:P;
    [|discriminate].
  apply StrFacts.strip_prefix_inv in P.
  destruct (run_nonslash_split r) as (rest & E & R & F).
  destruct (Str.run_nonslash r) as [|c g'] eqn:G; [discriminate|].
  intros [= <-]. exists rest. repeat split; try assumption; try discriminate.
  rewrite P, E. reflexivity.
Qed.

(** A successful search returns the name of the leftmost segment. *)
Lemma re_search_some (s g : string) :
  re_search s = Some g ->
  exists pre rest,
    user_segment s pre g rest
    /\ forall pre' name' rest',
         user_segment s pre' name' rest' ->
         String.length pre <= String.length pre'.
Proof.
  revert g; induction s as [|c s IH]; intros g; simpl.
  - discriminate.
  - destruct (match_here (String c s)) as [g0|] eqn:M.
    + intros [= ->]. apply match_here_some in M as (rest & U).
      exists "", rest. split; [assumption | simpl; lia].
    + intros H. destruct (IH _ H) as (pre & rest & (E & N & F & R) & L).
      exists (String c pre), rest. split.
      * repeat split; try assumption. rewrite E at 1. reflexivity.
      * intros [|c' pre'] name' rest' U.
        -- rewrite (match_here_segment _ _ _ U) in M. discriminate.
        -- destruct U as (E' & N' & F' & R'). simpl in E'.
           injection E' as -> E'. simpl. apply le_n_S.
           apply (L pre' name' rest'). repeat split; assumption.
Qed.

Lemma re_search_none (s : string) :
  re_search s = None -> ~ has_user_segment s.
Proof.
  induction s as [|c s IH]; simpl.
  - intros _ (pre & name & rest & E & _).
    destruct pre; discriminate E.
  - destruct (match_here (String c s)) eqn:M; [discriminate|].
    intros H ([|c' pre] & name & rest & U).
    + rewrite (match_here_segment _ _ _ U) in M. discriminate.
    + destruct U as (E & N & F & R). simpl in E. injection E as -> E.
      apply (IH H). exists pre, name, rest. repeat split; assumption.
Qed.

Lemma re_search_found (s : string) :
  has_user_segment s -> exists g, re_search s = Some g.
Proof.
  intros H. destruct (re_search s) as [g|] eqn:E; [now exists g|].
  now apply re_search_none in E.
Qed.

(** Two segments of one string that start at the same place carry the same
    name. *)
Lemma user_segment_same_name (s pre name rest pre' name' rest' : string) :
  user_segment s pre name rest -> user_segment s pre' name' rest' ->
  String.length pre = String.length pre' -> name = name'.
Proof.
  intros (E & N & F & R) (E' & N' & F' & R') L.
  rewrite E in E'. apply StrFacts.append_eq_length in E' as [_ E']; [|assumption].
  apply StrFacts.append_inj_l in E'.
  rewrite <- (run_nonslash_segment name rest F R),
          <- (run_nonslash_segment name' rest' F' R').
  now rewrite E'.
Qed.

Lemma extract_username_nonempty (s name : string) :
  extract_username s = Some name -> name <> "".
Proof.
  intros H. apply re_search_some in H as (pre & rest & (_ & N & _) & _).
  exact N.
Qed.

(** C4. Whenever the input contains a segment [reddit.com/user/<name>] the
    extractor returns such a name: the maximal run of non-slash characters
    that follows the leftmost occurrence of [reddit.com/user/] having one; a
    segment that no other precedes is therefore returned exactly.  An input
    without the pattern yields the sentinel [None].  The two inputs of the
    specification behave as stated.  The extractor is a pure function of its
    argument: it neither reads nor changes the program state. *)
Theorem extract_username_spec :
  (forall s, has_user_segment s ->
     exists pre name rest,
       user_segment s pre name rest
       /\ extract_username s = Some name
       /\ forall pre' name' rest',
            user_segment s pre' name' rest' ->
            String.length pre <= String.length pre')
  /\ (forall s pre name rest,
        user_segment s pre name rest ->
        (forall pre' name' rest',
            user_segment s pre' name' rest' ->
            String.length pre <= String.length pre') ->
        extract_username s = Some name)
  /\ (forall s, ~ has_user_segment s -> extract_username s = None)
  /\ extract_username "https://example.com" = None
  /\ extract_username "https://www.reddit.com/user/kojied/" = Some "kojied".
Proof.
  assert (first : forall s, has_user_segment s ->
     exists pre name rest,
       user_segment s pre name rest
       /\ extract_username s = Some name
       /\ forall pre' name' rest',
            user_segment s pre' name' rest' ->
            String.length pre <= String.length pre').
  { intros s H. destruct (re_search_found s H) as (g & E).
    destruct (re_search_some s g E) as (pre & rest & U & L).
    exists pre, g, rest. auto. }
  split; [exact first|]. split; [|split; [|split; reflexivity]].
  - intros s pre name rest U L.
    destruct (first s) as (pre0 & name0 & rest0 & U0 & E0 & L0).
    { now exists pre, name, rest. }
    rewrite E0. f_equal.
    apply (user_segment_same_name s pre0 name0 rest0 pre name rest U0 U).
    apply Nat.le_antisymm; [apply (L0 _ _ _ U) | apply (L _ _ _ U0)].
  - intros s H. unfold extract_username.
    destruct (re_search s) as [g|] eqn:E; [|reflexivity].
    exfalso. apply H.
    destruct (re_search_some s g E) as (pre & rest & U & _).
    now exists pre, g, rest.
Qed.

(** With two segments in the input the leftmost one is reported; a segment
    with an empty name is passed over. *)
Example extract_username_leftmost :
  extract_username "reddit.com/user/alice/reddit.com/user/bob" = Some "alice"
  /\ extract_username "reddit.com/user//reddit.com/user/bob" = Some "bob"
  /\ extract_username "https://www.reddit.com/user/kojied" = Some "kojied"
  /\ extract_username "https://www.reddit.com/user/" = None.
Proof. repeat split. Qed.

Lemma extract_username_spec_witness :
  exists pre name rest,
    user_segment "https://www.reddit.com/user/kojied/" pre name rest
    /\ extract_username "https://www.reddit.com/user/kojied/" = Some name
    /\ forall pre' name' rest',
         user_segment "https://www.reddit.com/user/kojied/" pre' name' rest' ->
         String.length pre <= String.length pre'.
Proof.
  apply (proj1 extract_username_spec "https://www.reddit.com/user/kojied/").
  exists "https://www.", "kojied", "/".
  repeat split; [discriminate | right; exists ""; reflexivity].
Defined.

(** ** The content fetcher *)

Lemma listing_new_length {A : Type} (limit : nat) (upstream : list (yield A)) :
  List.length (fst (listing_new limit upstream)) <= limit.
Proof.
  revert upstream; induction limit as [|n IH]; intros [|[a|e] rest]; simpl;
    try lia.
  specialize (IH rest). destruct (listing_new n rest); simpl in *. lia.
Qed.

Lemma listing_new_In {A : Type} (limit : nat) (upstream : list (yield A))
    (a : A) :
  In a (fst (listing_new limit upstream)) -> In (Item a) upstream.
Proof.
  revert upstream; induction limit as [|n IH]; intros [|[b|e] rest]; simpl;
    try tauto.
  specialize (IH rest). destruct (listing_new n rest); simpl in *.
  intros [->|H]; auto.
Qed.

(** Without failures upstream the generator yields the first [limit] items. *)
Lemma listing_new_items {A : Type} (limit : nat) (items : list A) :
  listing_new limit (map Item items) = (firstn limit items, None).
Proof.
  revert items; induction limit as [|n IH]; intros [|a items]; simpl;
    try reflexivity.
  now rewrite IH.
Qed.

Lemma get_user_data_returns (environ : Environ)
    (submissions_upstream : string -> list (yield Submission))
    (comments_upstream : string -> list (yield RedditComment))
    (username : string) (limit : nat) (st : state) :
  credentials_present environ ->
  exists st' rs lines,
    get_user_data environ submissions_upstream comments_upstream
      username limit st
    = (Return (fetched submissions_upstream comments_upstream username limit),
       st')
    /\ files st' = files st
    /\ requests st' = (requests st ++ rs)%list
    /\ listing_requests rs
    /\ stdout st' = (stdout st ++ lines)%list.
Proof.
  intros (H1 & H2 & H3). unfold get_user_data, fetched, fetch_failed.
  cbn [forallb]. rewrite H1, H2, H3. cbn [andb negb].
  unfold bind, print, fetch_listing, send, ret, listing_requests.
  destruct (listing_new limit (submissions_upstream username)) as [ss [e|]];
    destruct (listing_new limit (comments_upstream username)) as [cs [e'|]];
    destruct limit; cbn [printed sent requests files stdout];
    eexists; eexists; eexists;
    (split; [reflexivity|]); cbn [printed sent requests files stdout];
    (split; [reflexivity|]);
    rewrite <- ?app_assoc;
    (split; [try reflexivity; symmetry; apply app_nil_r |]);
    (split; [repeat constructor; eauto | reflexivity]).
Qed.

Lemma get_user_data_no_credentials (environ : Environ)
    (submissions_upstream : string -> list (yield Submission))
    (comments_upstream : string -> list (yield RedditComment))
    (username : string) (limit : nat) (st : state) :
  ~ credentials_present environ ->
  get_user_data environ submissions_upstream comments_upstream
      username limit st =
  (SysExit 1,
   printed ["Error: Reddit API credentials not found in environment variables. Please set them in your .env file."] st).
Proof.
  intros H. unfold get_user_data, credentials_present in *. cbn [forallb].
  destruct (truthy (REDDIT_CLIENT_ID environ));
    destruct (truthy (REDDIT_CLIENT_SECRET environ));
    destruct (truthy (REDDIT_USER_AGENT environ));
    try reflexivity.
  exfalso; apply H; auto.
Qed.

Lemma fetched_length (subs : string -> list (yield Submission))
    (coms : string -> list (yield RedditComment)) (username : string)
    (limit : nat) :
  List.length (fst (fetched subs coms username limit)) <= limit
  /\ List.length (snd (fetched subs coms username limit)) <= limit.
Proof.
  unfold fetched.
  pose proof (listing_new_length limit (subs username)) as Hs.
  pose proof (listing_new_length limit (coms username)) as Hc.
  destruct (listing_new limit (subs username)) as [ss [e|]];
    destruct (listing_new limit (coms username)) as [cs [e'|]];
    simpl in *; rewrite ?length_map; lia.
Qed.

(** C8. With the platform credentials configured, [get_user_data] returns,
    and whatever the upstream listings hold and whatever the limit is, it
    returns at most [limit] posts and at most [limit] comments. *)
Theorem get_user_data_at_most_limit :
  forall (environ : Environ) (subs : string -> list (yield Submission))
         (coms : string -> list (yield RedditComment))
         (username : string) (limit : nat) (st : state),
    credentials_present environ ->
    exists posts comments st',
      get_user_data environ subs coms username limit st
      = (Return (posts, comments), st')
      /\ List.length posts <= limit
      /\ List.length comments <= limit.
Proof.
  intros environ subs coms username limit st H.
  destruct (get_user_data_returns environ subs coms username limit st H)
    as (st' & rs & lines & E & _).
  destruct (fetched_length subs coms username limit) as [Lp Lc].
  destruct (fetched subs coms username limit) as [posts comments].
  exists posts, comments, st'. auto.
Qed.

Lemma get_user_data_at_most_limit_witness :
  exists posts comments st',
    get_user_data Scenario.configured Scenario.submissions Scenario.comments
      "kojied" 1 (initial Scenario.empty_disk)
    = (Return (posts, comments), st')
    /\ List.length posts <= 1
    /\ List.length comments <= 1.
Proof.
  apply get_user_data_at_most_limit.
  unfold credentials_present; simpl; auto.
Defined.

Lemma fetched_sources (subs : string -> list (yield Submission))
    (coms : string -> list (yield RedditComment)) (username : string)
    (limit : nat) :
  (forall p, In p (fst (fetched subs coms username limit)) ->
     exists submission,
       In (Item submission) (subs username)
       /\ p = post_of_submission submission)
  /\ (forall c, In c (snd (fetched subs coms username limit)) ->
        exists comment,
          In (Item comment) (coms username)
          /\ c = comment_of_rcomment comment).
Proof.
  unfold fetched.
  pose proof (listing_new_In limit (subs username)) as Hs.
  pose proof (listing_new_In limit (coms username)) as Hc.
  destruct (listing_new limit (subs username)) as [ss [e|]];
    destruct (listing_new limit (coms username)) as [cs [e'|]];
    simpl in *; split; try contradiction;
    intros x Hx; apply in_map_iff in Hx as (y & <- & Hy); eauto.
Qed.

(** C7. Every post and every comment that [get_user_data] returns was built
    from an item of the upstream listing, and its [url] is the base URL
    [https://www.reddit.com] followed by that item's permalink; hence it is
    not empty. *)
Theorem get_user_data_urls :
  forall (environ : Environ) (subs : string -> list (yield Submission))
         (coms : string -> list (yield RedditComment))
         (username : string) (limit : nat) (st : state),
    credentials_present environ ->
    exists posts comments st',
      get_user_data environ subs coms username limit st
      = (Return (posts, comments), st')
      /\ (forall p, In p posts ->
            post_url p <> ""
            /\ exists submission,
                 In (Item submission) (subs username)
                 /\ post_id p = submission_id submission
                 /\ post_url p = "https://www.reddit.com"
                                 ++ submission_permalink submission)
      /\ (forall c, In c comments ->
            comment_url c <> ""
            /\ exists comment,
                 In (Item comment) (coms username)
                 /\ comment_id c = rcomment_id comment
                 /\ comment_url c = "https://www.reddit.com"
                                    ++ rcomment_permalink comment).
Proof.
  intros environ subs coms username limit st H.
  destruct (get_user_data_returns environ subs coms username limit st H)
    as (st' & rs & lines & E & _).
  destruct (fetched_sources subs coms username limit) as [Sp Sc].
  destruct (fetched subs coms username limit) as [posts comments].
  exists posts, comments, st'. split; [exact E|]. split.
  - intros p Hp. destruct (Sp p Hp) as (submission & Hin & ->).
    split; [discriminate|]. exists submission. auto.
  - intros c Hc. destruct (Sc c Hc) as (comment & Hin & ->).
    split; [discriminate|]. exists comment. auto.
Qed.

Lemma get_user_data_urls_witness :
  exists posts comments st',
    get_user_data Scenario.configured Scenario.submissions Scenario.comments
      "kojied" 50 (initial Scenario.empty_disk)
    = (Return (posts, comments), st')
    /\ (forall p, In p posts ->
          post_url p <> ""
          /\ exists submission,
               In (Item submission) (Scenario.submissions "kojied")
               /\ post_id p = submission_id submission
               /\ post_url p = "https://www.reddit.com"
                               ++ submission_permalink submission)
    /\ (forall c, In c comments ->
          comment_url c <> ""
          /\ exists comment,
               In (Item comment) (Scenario.comments "kojied")
               /\ comment_id c = rcomment_id comment
               /\ comment_url c = "https://www.reddit.com"
                                  ++ rcomment_permalink comment).
Proof.
  apply get_user_data_urls.
  unfold credentials_present; simpl; auto.
Defined.

Lemma fetched_complete (subs : string -> list (yield Submission))
    (coms : string -> list (yield RedditComment)) (username : string)
    (limit : nat) (submissions : list Submission)
    (rcomments : list RedditComment) :
  listing_new limit (subs username) = (submissions, None) ->
  listing_new limit (coms username) = (rcomments, None) ->
  fetched subs coms username limit
  = (map post_of_submission submissions, map comment_of_rcomment rcomments).
Proof. intros Hs Hc. unfold fetched. now rewrite Hs, Hc. Qed.


Lemma post_of_submission_records (submission : Submission) :
  records_submission submission (post_of_submission submission).
Proof.
  unfold records_submission, post_of_submission.
  cbn [post_id post_url post_title post_selftext].
  repeat split; intros ->; reflexivity.
Qed.

(** C9, as the code has it.  Every post [get_user_data] returns is the
    record of a submission retrieved from upstream: it holds the submission's
    id, the permalink made absolute, the title, and as body the placeholder
    [[Link Post]] exactly when the submission is not a self post ([is_self]
    false), whatever self-text it carries, the submission's own self-text
    otherwise.  When both listings are read to their end, the posts returned
    are the records of all the submissions retrieved, in order. *)
Theorem get_user_data_records_posts :
  forall (environ : Environ) (subs : string -> list (yield Submission))
         (coms : string -> list (yield RedditComment))
         (username : string) (limit : nat) (st : state),
    credentials_present environ ->
    exists posts comments st',
      get_user_data environ subs coms username limit st
      = (Return (posts, comments), st')
      /\ (forall p, In p posts ->
            exists submission,
              In (Item submission) (subs username)
              /\ records_submission submission p)
      /\ (forall submissions rcomments,
            listing_new limit (subs username) = (submissions, None) ->
            listing_new limit (coms username) = (rcomments, None) ->
            Forall2 records_submission submissions posts).
Proof.
  intros environ subs coms username limit st H.
  destruct (get_user_data_returns environ subs coms username limit st H)
    as (st' & rs & lines & E & _).
  destruct (fetched_sources subs coms username limit) as [Sp _].
  pose proof (fetched_complete subs coms username limit) as Fc.
  destruct (fetched subs coms username limit) as [posts comments].
  exists posts, comments, st'. split; [exact E|]. split.
  - intros p Hp. destruct (Sp p Hp) as (submission & Hin & ->).
    exists submission. split; [exact Hin|].
    apply post_of_submission_records.
  - intros submissions rcomments Hs Hc.
    specialize (Fc submissions rcomments Hs Hc). injection Fc as -> _.
    clear. induction submissions as [|submission l IH]; constructor; auto.
    apply post_of_submission_records.
Qed.

Lemma get_user_data_records_posts_witness :
  exists posts comments st',
    get_user_data Scenario.configured Scenario.all_kinds Scenario.comments
      "kojied" 50 (initial Scenario.empty_disk)
    = (Return (posts, comments), st')
    /\ Forall2 records_submission
         [Scenario.text_post; Scenario.link_post; Scenario.captioned_link]
         posts.
Proof.
  destruct (get_user_data_records_posts Scenario.configured
              Scenario.all_kinds Scenario.comments "kojied" 50
              (initial Scenario.empty_disk))
    as (posts & comments & st' & E & _ & F).
  - unfold credentials_present; simpl; auto.
  - exists posts, comments, st'. split; [exact E|].
    apply (F [Scenario.text_post; Scenario.link_post;
              Scenario.captioned_link] [Scenario.reply]);
      vm_compute; reflexivity.
Defined.

(** C9 as stated fails: a link submission that carries self-text is not a
    link-only submission with no self-text, yet its body is replaced by the
    placeholder instead of being kept. *)
Lemma link_post_with_text_gets_placeholder :
  submission_is_self Scenario.captioned_link = false
  /\ submission_selftext Scenario.captioned_link = "hidden text"
  /\ fst (get_user_data Scenario.configured
            (fun _ => [Item Scenario.captioned_link]) Scenario.nothing
            "kojied" 50 (initial Scenario.empty_disk))
     = Return ([{| post_id := "4jkl";
                   post_url := "https://www.reddit.com/r/pics/comments/4jkl/sunset/";
                   post_title := "Sunset";
                   post_selftext := "[Link Post]" |}], []).
Proof. repeat split; vm_compute; reflexivity. Qed.

(** The two sample submissions as they are returned: the self post keeps its
    text, the link post gets the placeholder. *)
Example sample_posts :
  fetched Scenario.submissions Scenario.comments "kojied" 50
  = ([{| post_id := "1abc";
         post_url := "https://www.reddit.com/r/rust/comments/1abc/borrow_checker/";
         post_title := "Borrow checker";
         post_selftext := "It finally clicked." |};
      {| post_id := "2def";
         post_url := "https://www.reddit.com/r/news/comments/2def/headline/";
         post_title := "Headline";
         post_selftext := "[Link Post]" |}],
     [{| comment_id := "c9";
         comment_url := "https://www.reddit.com/r/rust/comments/1abc/borrow_checker/c9/";
         comment_body := "Agreed." |}]).
Proof. reflexivity. Qed.

(** ** The generator, the writer and the whole program *)

Lemma generate_persona_no_key (environ : Environ)
    (ChatCompletion_create : string -> completion)
    (posts : list Post) (comments : list Comment) (st : state) :
  truthy (OPENAI_API_KEY environ) = false ->
  generate_persona environ ChatCompletion_create posts comments st =
  (SysExit 1,
   printed ["Error: OpenAI API key not found in environment variables. Please set it in your .env file."] st).
Proof. intros H. unfold generate_persona. rewrite H. reflexivity. Qed.

Lemma generate_persona_eq (environ : Environ)
    (ChatCompletion_create : string -> completion)
    (posts : list Post) (comments : list Comment) (st : state) :
  truthy (OPENAI_API_KEY environ) = true ->
  generate_persona environ ChatCompletion_create posts comments st =
  match ChatCompletion_create (prompt ++ content_for_llm posts comments) with
  | Content text => (Return text, requested posts comments st)
  | OpenAIError e =>
      (SysExit 1,
       printed ["Please check your API key, subscription status, and try again."]
         (printed ["An error occurred with the OpenAI API: " ++ e]
            (requested posts comments st)))
  | OtherException e =>
      (SysExit 1,
       printed ["An unexpected error occurred during persona generation: "
                ++ e]
         (requested posts comments st))
  end.
Proof.
  intros H. unfold generate_persona, requested. rewrite H. cbn [negb].
  unfold bind, send, print, sys_exit, ret.
  destruct (max_input_length <? String.length (serialize posts comments))%nat;
    destruct (ChatCompletion_create (prompt ++ content_for_llm posts comments));
    reflexivity.
Qed.

Lemma save_persona_eq (open_write : string -> string -> io_outcome)
    (username persona_text : string) (st : state) :
  save_persona open_write username persona_text st =
  match open_write (persona_file username) persona_text with
  | IoOk =>
      (Return tt,
       printed ["Persona successfully saved to " ++ persona_file username]
         (snd (set_file (persona_file username) (Some persona_text) st)))
  | IoError e damage =>
      (SysExit 1,
       printed ["Error saving persona to file " ++ persona_file username
                ++ ": " ++ e]
         match damage with
         | Some content => snd (set_file (persona_file username) content st)
         | None => st
         end)
  end.
Proof.
  unfold save_persona, persona_file.
  destruct (open_write (username ++ "_persona.txt") persona_text)
    as [|e [content|]]; reflexivity.
Qed.

Section Whole.

Variable environ : Environ.
Variable stdin : string.
Variable submissions_upstream : string -> list (yield Submission).
Variable comments_upstream : string -> list (yield RedditComment).
Variable ChatCompletion_create : string -> completion.
Variable open_write : string -> string -> io_outcome.

Lemma main_invalid_url (st : state) :
  extract_username (Str.strip stdin) = None ->
  main environ stdin submissions_upstream comments_upstream
    ChatCompletion_create open_write st =
  (SysExit 1,
   printed ["Invalid Reddit URL. Please ensure it's in the format https://www.reddit.com/user/username/"]
     (printed ["Enter Reddit profile URL (e.g., https://www.reddit.com/user/kojied/): "]
        (printed ["--- Reddit User Persona Generator ---"] st))).
Proof. intros H. unfold main. rewrite H. reflexivity. Qed.

(** [main] from the point where the user name is known. *)
Lemma main_unfold (username : string) (st : state) :
  extract_username (Str.strip stdin) = Some username ->
  main environ stdin submissions_upstream comments_upstream
    ChatCompletion_create open_write st =
  match get_user_data environ submissions_upstream comments_upstream
          username 50 (started username st) with
  | (SysExit c, st1) => (SysExit c, st1)
  | (Return (posts, comments), st1) =>
      if no_data (posts, comments)
      then (SysExit 0, printed [no_data_message username] st1)
      else
        match generate_persona environ ChatCompletion_create posts comments
                (generating st1) with
        | (SysExit c, st2) => (SysExit c, st2)
        | (Return "", st2) =>
            (Return tt, printed ["Failed to generate persona."] st2)
        | (Return persona, st2) =>
            save_persona open_write username persona st2
        end
  end.
Proof.
  intros H. pose proof (extract_username_nonempty _ _ H) as N.
  unfold main. rewrite H. destruct username as [|c u]; [congruence|].
  unfold bind at 1 2 3. unfold print at 1 2 3. fold (started (String c u) st).
  unfold bind at 1.
  destruct (get_user_data environ submissions_upstream comments_upstream
              (String c u) 50 (started (String c u) st))
    as [[[posts comments]|code] st1]; [|reflexivity].
  destruct posts as [|p posts], comments as [|cm comments];
    cbn [no_data]; try reflexivity.
  all: unfold bind, print; fold (generating st1);
    destruct (generate_persona _ _ _ _ _) as [[[|a t]|code] st2];
    reflexivity.
Qed.

End Whole.

Lemma has_credentials_iff (environ : Environ) :
  has_credentials environ = true <-> credentials_present environ.
Proof.
  unfold has_credentials, credentials_present. cbn [forallb].
  rewrite !andb_true_iff. tauto.
Qed.

Lemma has_credentials_false (environ : Environ) :
  has_credentials environ = false <-> ~ credentials_present environ.
Proof.
  rewrite <- has_credentials_iff.
  destruct (has_credentials environ); split; congruence.
Qed.

(** The source and the stage-by-stage account agree on how every run ends. *)
Lemma main_outcome (environ : Environ) (stdin : string)
    (subs : string -> list (yield Submission))
    (coms : string -> list (yield RedditComment))
    (cc : string -> completion) (ow : string -> string -> io_outcome)
    (st : state) :
  fst (main environ stdin subs coms cc ow st)
  = outcome environ stdin subs coms cc ow.
Proof.
  unfold outcome.
  destruct (extract_username (Str.strip stdin)) as [username|] eqn:U.
  2: { now rewrite main_invalid_url. }
  rewrite (main_unfold _ _ _ _ _ _ username st U).
  destruct (has_credentials environ) eqn:C; cbn [negb].
  2: { apply has_credentials_false in C.
       now rewrite get_user_data_no_credentials. }
  apply has_credentials_iff in C.
  destruct (get_user_data_returns environ subs coms username 50
              (started username st) C) as (st1 & rs & lines & E & _).
  rewrite E. destruct (fetched subs coms username 50) as [posts comments].
  destruct (no_data (posts, comments)); [reflexivity|].
  destruct (truthy (OPENAI_API_KEY environ)) eqn:K; cbn [negb].
  2: { now rewrite generate_persona_no_key. }
  rewrite generate_persona_eq by assumption.
  destruct (cc (prompt ++ content_for_llm posts comments)) as [[|a t]|e|e];
    try reflexivity.
  rewrite save_persona_eq.
  destruct (ow (persona_file username) (String a t)); reflexivity.
Qed.



Lemma max_input_length_value : max_input_length = 15000.
Proof. reflexivity. Qed.

Lemma content_for_llm_take (posts : list Post) (comments : list Comment) :
  content_for_llm posts comments
  = Str.take max_input_length (serialize posts comments).
Proof.
  unfold content_for_llm.
  destruct (Nat.ltb_spec max_input_length
              (String.length (serialize posts comments))); [reflexivity|].
  symmetry. now apply StrFacts.take_all.
Qed.

Lemma content_for_llm_length (posts : list Post) (comments : list Comment) :
  String.length (content_for_llm posts comments) <= max_input_length.
Proof. rewrite content_for_llm_take, StrFacts.length_take. lia. Qed.

Lemma truncation_warning_text (n : nat) :
  truncation_warning n
  = "Warning: Reddit data truncated from " ++ Str.of_nat n
    ++ " to 15000 characters to fit LLM context.".
Proof.
  unfold truncation_warning.
  replace (Str.of_nat max_input_length) with "15000"
    by (vm_compute; reflexivity).
  reflexivity.
Qed.

(** C3. With the API key configured, the prompt [generate_persona] sends is
    the instruction text followed by a content block that is the first 15000
    characters of the serialised posts and comments, hence at most 15000
    characters long whatever their size.  When the serialisation is longer
    than 15000 characters the first line the call prints is the warning
    [Warning: Reddit data truncated from <length> to 15000 characters to fit
    LLM context.]; and a line that starts with [Warning:] is printed if and
    only if the serialisation is longer than 15000 characters. *)
Theorem generate_persona_truncates :
  forall (environ : Environ) (cc : string -> completion)
         (posts : list Post) (comments : list Comment) (st : state),
    truthy (OPENAI_API_KEY environ) = true ->
    exists r st' lines,
      generate_persona environ cc posts comments st = (r, st')
      /\ requests st'
         = (requests st
            ++ [CompletionRequest (prompt ++ content_for_llm posts comments)])%list
      /\ content_for_llm posts comments
         = Str.take 15000 (serialize posts comments)
      /\ String.length (content_for_llm posts comments) <= 15000
      /\ stdout st' = (stdout st ++ lines)%list
      /\ (15000 < String.length (serialize posts comments) ->
          exists rest,
            lines
            = ("Warning: Reddit data truncated from "
               ++ Str.of_nat (String.length (serialize posts comments))
               ++ " to 15000 characters to fit LLM context.")%string :: rest)
      /\ ((exists line, In line lines
                        /\ String.prefix "Warning:" line = true)
          <-> 15000 < String.length (serialize posts comments)).
Proof.
  intros environ cc posts comments st K.
  rewrite generate_persona_eq by assumption.
  pose proof (content_for_llm_take posts comments) as T.
  pose proof (content_for_llm_length posts comments) as L.
  rewrite max_input_length_value in T, L. unfold requested.
  rewrite max_input_length_value.
  destruct (Nat.ltb_spec 15000 (String.length (serialize posts comments)))
    as [Lt|Ge];
    destruct (cc (prompt ++ content_for_llm posts comments)) as [t|e|e];
    eexists; eexists; eexists;
    (split; [reflexivity|]); cbn [printed sent requests stdout];
    (split; [reflexivity|]); (split; [exact T|]); (split; [exact L|]);
    rewrite <- ?app_assoc;
    (split; [try reflexivity; symmetry; apply app_nil_r|]);
    cbn [app]; rewrite ?truncation_warning_text.
  all: split.
  all: try (intros _; eexists; reflexivity).
  all: try (intros Lt; exfalso; lia).
  all: split.
  all: try (intros _; exact Lt).
  all: try (intros _; eexists; split; [left; reflexivity | reflexivity]).
  all: try (intros Lt; exfalso; lia).
  all: intros (line & H & P); exfalso; cbn [In] in H;
    repeat (destruct H as [H|H]; [rewrite <- H in P; discriminate P|]);
    exact H.
Qed.

(** A serialisation of 16085 characters is cut to 15000 and announced. *)
Example truncation_of_a_long_post :
  String.length (serialize [post_of_submission Scenario.long_post] []) = 16085
  /\ String.length (content_for_llm [post_of_submission Scenario.long_post] [])
     = 15000
  /\ stdout (snd (generate_persona Scenario.configured Scenario.persona_api
                    [post_of_submission Scenario.long_post] []
                    (initial Scenario.empty_disk)))
     = ["Warning: Reddit data truncated from 16085 to 15000 characters to fit LLM context."].
Proof. repeat split; vm_compute; reflexivity. Qed.

Lemma generate_persona_truncates_witness :
  exists r st' lines,
    generate_persona Scenario.configured Scenario.persona_api
      [post_of_submission Scenario.long_post] []
      (initial Scenario.empty_disk)
    = (r, st')
    /\ String.length (content_for_llm
                        [post_of_submission Scenario.long_post] []) <= 15000
    /\ stdout st' = (stdout (initial Scenario.empty_disk) ++ lines)%list
    /\ exists rest,
         lines
         = "Warning: Reddit data truncated from 16085 to 15000 characters to fit LLM context."
           :: rest.
Proof.
  destruct (generate_persona_truncates Scenario.configured
              Scenario.persona_api [post_of_submission Scenario.long_post] []
              (initial Scenario.empty_disk))
    as (r & st' & lines & E & _ & _ & L & O & W & _).
  - vm_compute; reflexivity.
  - exists r, st', lines. split; [exact E|]. split; [exact L|].
    split; [exact O|].
    destruct W as [rest W].
    + apply Nat.ltb_lt. vm_compute; reflexivity.
    + exists rest. rewrite W. f_equal; vm_compute; reflexivity.
Defined.

Lemma set_file_lookup (name : string) (content : option string) (st : state) :
  files (snd (set_file name content st)) name = content
  /\ forall other, other <> name ->
       files (snd (set_file name content st)) other = files st other.
Proof.
  cbn [set_file snd files]. split.
  - now rewrite String.eqb_refl.
  - intros other H. apply String.eqb_neq in H. now rewrite H.
Qed.

(** C5. When the file can be written, [save_persona] leaves the file
    [<username>_persona.txt] holding exactly the text it was given, whatever
    the file held before, and touches no other file.  In a whole run, the
    text the completion API returns (such as [PERSONA_TEXT]) is the exact
    content of that file when [main] returns. *)
Theorem save_persona_writes_verbatim :
  (forall (ow : string -> string -> io_outcome)
          (username persona_text : string) (st : state),
      ow (username ++ "_persona.txt") persona_text = IoOk ->
      exists st',
        save_persona ow username persona_text st = (Return tt, st')
        /\ files st' (username ++ "_persona.txt") = Some persona_text
        /\ forall other, other <> username ++ "_persona.txt" ->
             files st' other = files st other)
  /\ (forall (environ : Environ) (stdin : string)
             (subs : string -> list (yield Submission))
             (coms : string -> list (yield RedditComment))
             (cc : string -> completion) (ow : string -> string -> io_outcome)
             (username persona : string) (posts : list Post)
             (comments : list Comment) (st : state),
         extract_username (Str.strip stdin) = Some username ->
         credentials_present environ ->
         fetched subs coms username 50 = (posts, comments) ->
         no_data (posts, comments) = false ->
         truthy (OPENAI_API_KEY environ) = true ->
         cc (prompt ++ content_for_llm posts comments) = Content persona ->
         persona <> "" ->
         ow (username ++ "_persona.txt") persona = IoOk ->
         exists st',
           main environ stdin subs coms cc ow st = (Return tt, st')
           /\ files st' (username ++ "_persona.txt") = Some persona).
Proof.
  split.
  - intros ow username persona_text st W.
    rewrite save_persona_eq. unfold persona_file. rewrite W.
    eexists. split; [reflexivity|]. cbn [printed files].
    apply set_file_lookup.
  - intros environ stdin subs coms cc ow username persona posts comments st
           U C F D K A N W.
    rewrite (main_unfold _ _ _ _ _ _ username st U).
    destruct (get_user_data_returns environ subs coms username 50
                (started username st) C) as (st1 & rs & lines & E & _).
    rewrite E, F, D, generate_persona_eq, A by assumption.
    destruct persona as [|a t]; [congruence|].
    rewrite save_persona_eq. unfold persona_file. rewrite W.
    eexists. split; [reflexivity|]. cbn [printed files].
    apply set_file_lookup.
Qed.

Lemma save_persona_writes_verbatim_witness :
  (exists st',
     save_persona Scenario.writable "kojied" "PERSONA_TEXT"
       (initial (fun _ => Some "an older persona"))
     = (Return tt, st')
     /\ files st' "kojied_persona.txt" = Some "PERSONA_TEXT"
     /\ forall other, other <> "kojied_persona.txt" ->
          files st' other = Some "an older persona")
  /\ (exists st',
        main Scenario.configured Scenario.profile Scenario.submissions
          Scenario.comments Scenario.persona_api Scenario.writable
          (initial Scenario.empty_disk)
        = (Return tt, st')
        /\ files st' "kojied_persona.txt" = Some "PERSONA_TEXT").
Proof.
  split.
  - apply (proj1 save_persona_writes_verbatim Scenario.writable "kojied"
             "PERSONA_TEXT" (initial (fun _ => Some "an older persona"))).
    reflexivity.
  - apply (proj2 save_persona_writes_verbatim Scenario.configured
             Scenario.profile Scenario.submissions Scenario.comments
             Scenario.persona_api Scenario.writable "kojied" "PERSONA_TEXT"
             (map post_of_submission [Scenario.text_post; Scenario.link_post])
             (map comment_of_rcomment [Scenario.reply])
             (initial Scenario.empty_disk)).
    + vm_compute; reflexivity.
    + unfold credentials_present; simpl; auto.
    + vm_compute; reflexivity.
    + vm_compute; reflexivity.
    + vm_compute; reflexivity.
    + vm_compute; reflexivity.
    + discriminate.
    + vm_compute; reflexivity.
Defined.

Lemma prints_after_refl (st : state) : prints_after st st.
Proof. exists []. now rewrite app_nil_r. Qed.

Lemma prints_after_trans (a b c : state) :
  prints_after a b -> prints_after b c -> prints_after a c.
Proof.
  intros [l1 H1] [l2 H2]. exists (l1 ++ l2)%list.
  now rewrite H2, H1, app_assoc.
Qed.

Lemma prints_after_printed (lines : list string) (st : state) :
  prints_after st (printed lines st).
Proof. now exists lines. Qed.

Lemma prints_after_sent (rs : list request) (st : state) :
  prints_after st (sent rs st).
Proof. exists []. cbn [sent stdout]. now rewrite app_nil_r. Qed.

Lemma prints_after_started (username : string) (st : state) :
  prints_after st (started username st).
Proof.
  unfold started.
  repeat (eapply prints_after_trans; [|apply prints_after_printed]).
  apply prints_after_refl.
Qed.

Lemma prints_after_requested (posts : list Post) (comments : list Comment)
    (st : state) :
  prints_after st (requested posts comments st)
  /\ files (requested posts comments st) = files st.
Proof.
  unfold requested.
  destruct (max_input_length <? String.length (serialize posts comments))%nat;
    split; try reflexivity.
  - eapply prints_after_trans;
      [apply prints_after_printed | apply prints_after_sent].
  - apply prints_after_sent.
Qed.

(** C10. When the completion API succeeds with the empty string, [main]
    writes no file, prints the failure message as its last line and returns
    normally, so that the process ends with status 0. *)
Theorem empty_persona_exits_normally :
  forall (environ : Environ) (stdin : string)
         (subs : string -> list (yield Submission))
         (coms : string -> list (yield RedditComment))
         (cc : string -> completion) (ow : string -> string -> io_outcome)
         (username : string) (posts : list Post) (comments : list Comment)
         (st : state),
    extract_username (Str.strip stdin) = Some username ->
    credentials_present environ ->
    fetched subs coms username 50 = (posts, comments) ->
    no_data (posts, comments) = false ->
    truthy (OPENAI_API_KEY environ) = true ->
    cc (prompt ++ content_for_llm posts comments) = Content "" ->
    exists st' lines,
      main environ stdin subs coms cc ow st = (Return tt, st')
      /\ exit_status (fst (main environ stdin subs coms cc ow st)) = 0%Z
      /\ files st' = files st
      /\ stdout st'
         = (stdout st ++ lines ++ ["Failed to generate persona."])%list.
Proof.
  intros environ stdin subs coms cc ow username posts comments st
         U C F D K A.
  rewrite (main_unfold _ _ _ _ _ _ username st U).
  destruct (get_user_data_returns environ subs coms username 50
              (started username st) C)
    as (st1 & rs & lines & E & Fi & _ & _ & O).
  rewrite E, F, D, generate_persona_eq, A by assumption.
  destruct (prints_after_requested posts comments (generating st1))
    as [P Fr].
  assert (Q : prints_after st (requested posts comments (generating st1))).
  { eapply prints_after_trans; [apply (prints_after_started username)|].
    eapply prints_after_trans; [exists lines; exact O|].
    eapply prints_after_trans; [apply prints_after_printed | exact P]. }
  destruct Q as [ls Q].
  eexists; exists ls. split; [reflexivity|]. split; [reflexivity|].
  cbn [printed files stdout]. rewrite Fr, Q. cbn [generating printed files].
  split; [exact Fi | now rewrite <- app_assoc].
Qed.

Lemma empty_persona_exits_normally_witness :
  exists st' lines,
    main Scenario.configured Scenario.profile Scenario.submissions
      Scenario.comments Scenario.silent_api Scenario.writable
      (initial Scenario.empty_disk)
    = (Return tt, st')
    /\ exit_status
         (fst (main Scenario.configured Scenario.profile Scenario.submissions
                 Scenario.comments Scenario.silent_api Scenario.writable
                 (initial Scenario.empty_disk))) = 0%Z
    /\ files st' = files (initial Scenario.empty_disk)
    /\ stdout st'
       = (stdout (initial Scenario.empty_disk) ++ lines
          ++ ["Failed to generate persona."])%list.
Proof.
  apply (empty_persona_exits_normally Scenario.configured Scenario.profile
           Scenario.submissions Scenario.comments Scenario.silent_api
           Scenario.writable "kojied"
           (map post_of_submission [Scenario.text_post; Scenario.link_post])
           (map comment_of_rcomment [Scenario.reply])
           (initial Scenario.empty_disk)).
  - vm_compute; reflexivity.
  - unfold credentials_present; simpl; auto.
  - vm_compute; reflexivity.
  - vm_compute; reflexivity.
  - vm_compute; reflexivity.
  - vm_compute; reflexivity.
Defined.

(** C2, as the code has it.  When one of the three platform credentials is
    absent the run ends with status 1 and no request has been sent.  When
    the completion-API key is absent, [generate_persona] ends the run with
    status 1 before it sends anything, and over the whole run no completion
    request goes out; the listing requests of the fetch stage, which runs
    first, may have been sent. *)
Theorem missing_configuration_stops_its_stage :
  (forall (environ : Environ) (stdin : string)
          (subs : string -> list (yield Submission))
          (coms : string -> list (yield RedditComment))
          (cc : string -> completion) (ow : string -> string -> io_outcome)
          (st : state),
      ~ credentials_present environ ->
      ending environ stdin subs coms cc ow st = SysExit 1
      /\ traffic environ stdin subs coms cc ow st = requests st)
  /\ (forall (environ : Environ) (cc : string -> completion)
             (posts : list Post) (comments : list Comment) (st : state),
         truthy (OPENAI_API_KEY environ) = false ->
         exists st',
           generate_persona environ cc posts comments st = (SysExit 1, st')
           /\ requests st' = requests st)
  /\ (forall (environ : Environ) (stdin : string)
             (subs : string -> list (yield Submission))
             (coms : string -> list (yield RedditComment))
             (cc : string -> completion) (ow : string -> string -> io_outcome)
             (st : state),
         truthy (OPENAI_API_KEY environ) = false ->
         exists rs,
           traffic environ stdin subs coms cc ow st
           = (requests st ++ rs)%list
           /\ listing_requests rs).
Proof.
  split; [|split].
  - intros environ stdin subs coms cc ow st C. unfold ending, traffic.
    destruct (extract_username (Str.strip stdin)) as [username|] eqn:U.
    + rewrite (main_unfold _ _ _ _ _ _ username st U).
      rewrite get_user_data_no_credentials by assumption.
      split; reflexivity.
    + rewrite main_invalid_url by assumption. split; reflexivity.
  - intros environ cc posts comments st K.
    rewrite generate_persona_no_key by assumption.
    eexists. split; reflexivity.
  - intros environ stdin subs coms cc ow st K. unfold traffic.
    assert (none : forall l : list request,
               l = (l ++ [])%list /\ listing_requests []).
    { intros l. split; [now rewrite app_nil_r | constructor]. }
    destruct (extract_username (Str.strip stdin)) as [username|] eqn:U.
    2: { rewrite main_invalid_url by assumption. exists []. apply none. }
    rewrite (main_unfold _ _ _ _ _ _ username st U).
    destruct (has_credentials environ) eqn:C.
    2: { apply has_credentials_false in C.
         rewrite get_user_data_no_credentials by assumption.
         exists []. apply none. }
    apply has_credentials_iff in C.
    destruct (get_user_data_returns environ subs coms username 50
                (started username st) C)
      as (st1 & rs & lines & E & _ & R & L & _).
    rewrite E. destruct (fetched subs coms username 50) as [posts comments].
    exists rs. split; [|exact L].
    destruct (no_data (posts, comments)); [exact R|].
    rewrite generate_persona_no_key by assumption. exact R.
Qed.

Lemma missing_configuration_stops_its_stage_witness :
  ending Scenario.no_client_secret Scenario.profile Scenario.submissions
    Scenario.comments Scenario.persona_api Scenario.writable
    (initial Scenario.empty_disk) = SysExit 1
  /\ traffic Scenario.no_client_secret Scenario.profile Scenario.submissions
       Scenario.comments Scenario.persona_api Scenario.writable
       (initial Scenario.empty_disk) = [].
Proof.
  apply (proj1 missing_configuration_stops_its_stage
           Scenario.no_client_secret Scenario.profile Scenario.submissions
           Scenario.comments Scenario.persona_api Scenario.writable
           (initial Scenario.empty_disk)).
  unfold credentials_present. simpl. intros (_ & H & _). discriminate H.
Defined.

(** C2 as stated fails: with only the completion-API key absent, both
    listing requests have gone out when the run ends. *)
Lemma missing_completion_key_fetches_first :
  OPENAI_API_KEY Scenario.no_completion_key = None
  /\ ending Scenario.no_completion_key Scenario.profile Scenario.submissions
       Scenario.comments Scenario.persona_api Scenario.writable
       (initial Scenario.empty_disk) = SysExit 1
  /\ traffic Scenario.no_completion_key Scenario.profile Scenario.submissions
       Scenario.comments Scenario.persona_api Scenario.writable
       (initial Scenario.empty_disk)
     = [ListingRequest Submissions "kojied" 50;
        ListingRequest Comments "kojied" 50].
Proof. repeat split; vm_compute; reflexivity. Qed.

Lemma outcome_status (environ : Environ) (stdin : string)
    (subs : string -> list (yield Submission))
    (coms : string -> list (yield RedditComment))
    (cc : string -> completion) (ow : string -> string -> io_outcome) :
  exit_status (outcome environ stdin subs coms cc ow) = 0%Z
  \/ exit_status (outcome environ stdin subs coms cc ow) = 1%Z.
Proof.
  unfold outcome.
  destruct (extract_username (Str.strip stdin)) as [username|]; [|now right].
  destruct (has_credentials environ); cbn [negb]; [|now right].
  destruct (fetched subs coms username 50) as [posts comments].
  destruct (no_data (posts, comments)); [now left|].
  destruct (truthy (OPENAI_API_KEY environ)); cbn [negb]; [|now right].
  destruct (cc (prompt ++ content_for_llm posts comments)) as [[|a t]|e|e];
    try (now left); try (now right).
  destruct (ow (persona_file username) (String a t)); [now left|now right].
Qed.

(** C6, as the code has it.  A run ends with status 0 or 1 and nothing else.
    The edge out of [Start] on a bad URL ends with status 1; the edge out of
    [Fetched] on empty data ends with status 0; every unrecoverable
    configuration, API or write error (missing platform credentials, missing
    API key, a failing completion request, a failing write) ends with
    status 1, the same status as the bad URL. *)
Theorem exit_status_by_edge :
  forall (environ : Environ) (stdin : string)
         (subs : string -> list (yield Submission))
         (coms : string -> list (yield RedditComment))
         (cc : string -> completion) (ow : string -> string -> io_outcome)
         (st : state),
    (exit_status (ending environ stdin subs coms cc ow st) = 0%Z
     \/ exit_status (ending environ stdin subs coms cc ow st) = 1%Z)
    /\ (extract_username (Str.strip stdin) = None ->
        ending environ stdin subs coms cc ow st = SysExit 1)
    /\ (forall username,
          extract_username (Str.strip stdin) = Some username ->
          ~ credentials_present environ ->
          ending environ stdin subs coms cc ow st = SysExit 1)
    /\ (forall username,
          extract_username (Str.strip stdin) = Some username ->
          credentials_present environ ->
          no_data (fetched subs coms username 50) = true ->
          ending environ stdin subs coms cc ow st = SysExit 0)
    /\ (forall username posts comments,
          extract_username (Str.strip stdin) = Some username ->
          credentials_present environ ->
          fetched subs coms username 50 = (posts, comments) ->
          no_data (posts, comments) = false ->
          truthy (OPENAI_API_KEY environ) = false
          \/ (exists e, cc (prompt ++ content_for_llm posts comments)
                        = OpenAIError e)
          \/ (exists e, cc (prompt ++ content_for_llm posts comments)
                        = OtherException e)
          \/ (exists persona e damage,
                 cc (prompt ++ content_for_llm posts comments)
                 = Content persona
                 /\ persona <> ""
                 /\ ow (username ++ "_persona.txt") persona
                    = IoError e damage) ->
          ending environ stdin subs coms cc ow st = SysExit 1).
Proof.
  intros environ stdin subs coms cc ow st. unfold ending.
  rewrite main_outcome. split; [apply outcome_status|].
  unfold outcome. repeat split.
  - intros ->. reflexivity.
  - intros username -> C. apply has_credentials_false in C.
    now rewrite C.
  - intros username -> C D. apply has_credentials_iff in C.
    rewrite C. cbn [negb].
    destruct (fetched subs coms username 50) as [posts comments].
    now rewrite D.
  - intros username posts comments -> C F D H.
    apply has_credentials_iff in C. rewrite C, F, D. cbn [negb].
    destruct (truthy (OPENAI_API_KEY environ)) eqn:K; [|reflexivity].
    cbn [negb].
    destruct H as [H|[[e H]|[[e H]|(persona & e & damage & H & N & W)]]].
    + discriminate H.
    + now rewrite H.
    + now rewrite H.
    + rewrite H. destruct persona as [|a t]; [congruence|].
      unfold persona_file. now rewrite W.
Qed.

Lemma exit_status_by_edge_witness :
  ending Scenario.configured "https://example.com" Scenario.submissions
    Scenario.comments Scenario.persona_api Scenario.writable
    (initial Scenario.empty_disk) = SysExit 1.
Proof.
  apply (proj1 (proj2 (exit_status_by_edge Scenario.configured
                         "https://example.com" Scenario.submissions
                         Scenario.comments Scenario.persona_api
                         Scenario.writable (initial Scenario.empty_disk)))).
  vm_compute; reflexivity.
Defined.

(** C6 as stated fails: the bad-URL edge and the missing-credentials edge
    are different failure paths that end with the same status, 1. *)
Lemma failure_edges_share_status :
  extract_username (Str.strip "https://example.com") = None
  /\ extract_username (Str.strip Scenario.profile) = Some "kojied"
  /\ REDDIT_CLIENT_SECRET Scenario.no_client_secret = None
  /\ exit_status
       (ending Scenario.configured "https://example.com"
          Scenario.submissions Scenario.comments Scenario.persona_api
          Scenario.writable (initial Scenario.empty_disk)) = 1%Z
  /\ exit_status
       (ending Scenario.no_client_secret Scenario.profile
          Scenario.submissions Scenario.comments Scenario.persona_api
          Scenario.writable (initial Scenario.empty_disk)) = 1%Z.
Proof. repeat split; vm_compute; reflexivity. Qed.

(** * Further properties *)

(** ** The extractor and the input line *)

Lemma slash_free_append (a b : string) :
  Str.slash_free (a ++ b) = Str.slash_free a && Str.slash_free b.
Proof.
  induction a as [|c a IH]; simpl; [reflexivity|].
  now rewrite IH, andb_assoc.
Qed.

(** X1. A name the extractor returns is never empty and holds no slash, so
    the file name [<name>_persona.txt] built from it holds none either: the
    persona is written in the working directory. *)
Theorem extract_username_no_slash :
  forall s name,
    extract_username s = Some name ->
    name <> ""
    /\ Str.slash_free name = true
    /\ Str.slash_free (persona_file name) = true.
Proof.
  intros s name H.
  apply re_search_some in H as (pre & rest & (_ & N & F & _) & _).
  repeat split; try assumption.
  unfold persona_file. rewrite slash_free_append, F. reflexivity.
Qed.

Lemma extract_username_no_slash_witness :
  "kojied" <> ""
  /\ Str.slash_free "kojied" = true
  /\ Str.slash_free (persona_file "kojied") = true.
Proof.
  apply (extract_username_no_slash "https://www.reddit.com/user/kojied/").
  vm_compute; reflexivity.
Defined.

Lemma strip_prefix_append_some (p s r x : string) :
  Str.strip_prefix p s = Some r ->
  Str.strip_prefix p (s ++ x) = Some (r ++ x).
Proof.
  revert s; induction p as [|a p IH]; intros s; simpl.
  - now intros [= ->].
  - destruct s as [|b s]; [discriminate|]. simpl.
    destruct (Ascii.eqb a b); [apply IH | discriminate].
Qed.

Lemma strip_prefix_append_none (p s x : string) :
  Str.strip_prefix p s = None ->
  String.length p <= String.length s ->
  Str.strip_prefix p (s ++ x) = None.
Proof.
  revert s; induction p as [|a p IH]; intros s; simpl.
  - discriminate.
  - destruct s as [|b s]; simpl; [lia|].
    destruct (Ascii.eqb a b); [|reflexivity].
    intros H L. apply IH; [assumption | lia].
Qed.

Lemma run_nonslash_append_slash (r t : string) :
  Str.run_nonslash (r ++ String "/" t) = Str.run_nonslash r.
Proof.
  induction r as [|c r IH]; simpl; [reflexivity|].
  destruct (Str.is_slash c); [reflexivity | now rewrite IH].
Qed.

Lemma match_here_append_slash (s t : string) :
  String.length "reddit.com/user/" <= String.length s ->
  match_here (s ++ String "/" t) = match_here s.
Proof.
  intros L. unfold match_here.
  destruct (Str.strip_prefix "reddit.com/user/" s) as [r|] eqn:P.
  - rewrite (strip_prefix_append_some _ _ _ _ P), run_nonslash_append_slash.
    reflexivity.
  - now rewrite (strip_prefix_append_none _ _ _ P L).
Qed.

Lemma re_search_some_length (s g : string) :
  re_search s = Some g ->
  String.length "reddit.com/user/" < String.length s.
Proof.
  intros H. apply re_search_some in H as (pre & rest & (E & N & _) & _).
  rewrite E, !StrFacts.length_append.
  destruct g; [congruence | simpl; lia].
Qed.

(** X2. What follows the profile URL after a slash does not matter: when the
    extractor finds a name in [s], it finds the same name in [s] followed by
    a slash and anything else. *)
Theorem extract_username_path_appended :
  forall s t name,
    extract_username s = Some name ->
    extract_username (s ++ String "/" t) = Some name.
Proof.
  unfold extract_username. intros s t name.
  induction s as [|c s IH]; [discriminate|].
  intros H. pose proof (re_search_some_length _ _ H) as L.
  change (String c s ++ String "/" t) with (String c (s ++ String "/" t)).
  cbn [re_search] in H |- *.
  change (String c (s ++ String "/" t)) with (String c s ++ String "/" t).
  rewrite match_here_append_slash by lia.
  destruct (match_here (String c s)); [assumption | auto].
Qed.

Lemma extract_username_path_appended_witness :
  extract_username ("https://www.reddit.com/user/kojied"
                    ++ String "/" "comments/?sort=new") = Some "kojied".
Proof.
  apply extract_username_path_appended. vm_compute; reflexivity.
Defined.

Lemma lstrip_all_space (s : string) : all_space s = true -> Str.lstrip s = "".
Proof.
  induction s as [|c s IH]; simpl; [reflexivity|].
  intros H. apply andb_true_iff in H as [Hc Hs]. now rewrite Hc, IH.
Qed.

Lemma rstrip_all_space (s : string) : all_space s = true -> Str.rstrip s = "".
Proof.
  induction s as [|c s IH]; simpl; [reflexivity|].
  intros H. apply andb_true_iff in H as [Hc Hs]. now rewrite IH, Hc.
Qed.

Lemma lstrip_padded (pre s : string) :
  all_space pre = true -> Str.lstrip (pre ++ s) = Str.lstrip s.
Proof.
  induction pre as [|c pre IH]; simpl; [reflexivity|].
  intros H. apply andb_true_iff in H as [Hc Hs]. now rewrite Hc, IH.
Qed.

Lemma rstrip_padded (s post : string) :
  all_space post = true -> Str.rstrip (s ++ post) = Str.rstrip s.
Proof.
  intros H. induction s as [|c s IH]; simpl.
  - now apply rstrip_all_space.
  - now rewrite IH.
Qed.

Lemma strip_padded (pre s post : string) :
  all_space pre = true -> all_space post = true ->
  Str.strip (pre ++ s ++ post) = Str.strip s.
Proof.
  intros Hpre Hpost. unfold Str.strip. rewrite lstrip_padded by assumption.
  induction s as [|c s IH]; simpl.
  - now rewrite lstrip_all_space.
  - destruct (Str.isspace c); [exact IH|].
    change (String c (s ++ post)) with (String c s ++ post).
    now apply rstrip_padded.
Qed.

(** X3. White space typed before or after the URL is ignored: the run on the
    padded line is the run on the line itself. *)
Theorem main_ignores_surrounding_space :
  forall (environ : Environ) (line pre post : string)
         (subs : string -> list (yield Submission))
         (coms : string -> list (yield RedditComment))
         (cc : string -> completion) (ow : string -> string -> io_outcome)
         (st : state),
    all_space pre = true ->
    all_space post = true ->
    main environ (pre ++ line ++ post) subs coms cc ow st
    = main environ line subs coms cc ow st.
Proof.
  intros environ line pre post subs coms cc ow st Hpre Hpost.
  unfold main. now rewrite strip_padded.
Qed.

Lemma main_ignores_surrounding_space_witness :
  main Scenario.configured ("  " ++ Scenario.profile ++ " ")
    Scenario.submissions Scenario.comments Scenario.persona_api
    Scenario.writable (initial Scenario.empty_disk)
  = main Scenario.configured Scenario.profile
      Scenario.submissions Scenario.comments Scenario.persona_api
      Scenario.writable (initial Scenario.empty_disk).
Proof.
  apply main_ignores_surrounding_space; vm_compute; reflexivity.
Defined.

(** ** The fetcher *)

Lemma comment_of_rcomment_records (comment : RedditComment) :
  records_comment comment (comment_of_rcomment comment).
Proof. repeat split. Qed.

(** X4. Every comment [get_user_data] returns is the record of a comment
    retrieved from upstream: its id, its permalink made absolute and its
    body, unchanged.  When both listings are read to their end, the comments
    returned are the records of all the comments retrieved, in order. *)
Theorem get_user_data_records_comments :
  forall (environ : Environ) (subs : string -> list (yield Submission))
         (coms : string -> list (yield RedditComment))
         (username : string) (limit : nat) (st : state),
    credentials_present environ ->
    exists posts comments st',
      get_user_data environ subs coms username limit st
      = (Return (posts, comments), st')
      /\ (forall c, In c comments ->
            exists comment,
              In (Item comment) (coms username)
              /\ records_comment comment c)
      /\ (forall submissions rcomments,
            listing_new limit (subs username) = (submissions, None) ->
            listing_new limit (coms username) = (rcomments, None) ->
            Forall2 records_comment rcomments comments).
Proof.
  intros environ subs coms username limit st H.
  destruct (get_user_data_returns environ subs coms username limit st H)
    as (st' & rs & lines & E & _).
  destruct (fetched_sources subs coms username limit) as [_ Sc].
  pose proof (fetched_complete subs coms username limit) as Fc.
  destruct (fetched subs coms username limit) as [posts comments].
  exists posts, comments, st'. split; [exact E|]. split.
  - intros c Hc. destruct (Sc c Hc) as (comment & Hin & ->).
    exists comment. split; [exact Hin|]. apply comment_of_rcomment_records.
  - intros submissions rcomments Hs Hc.
    specialize (Fc submissions rcomments Hs Hc). injection Fc as _ ->.
    clear. induction rcomments as [|comment l IH]; constructor; auto.
    apply comment_of_rcomment_records.
Qed.

Lemma get_user_data_records_comments_witness :
  exists posts comments st',
    get_user_data Scenario.configured Scenario.submissions Scenario.comments
      "kojied" 50 (initial Scenario.empty_disk)
    = (Return (posts, comments), st')
    /\ (forall c, In c comments ->
          exists comment,
            In (Item comment) (Scenario.comments "kojied")
            /\ records_comment comment c)
    /\ (forall submissions rcomments,
          listing_new 50 (Scenario.submissions "kojied")
          = (submissions, None) ->
          listing_new 50 (Scenario.comments "kojied") = (rcomments, None) ->
          Forall2 records_comment rcomments comments).
Proof.
  apply (get_user_data_records_comments Scenario.configured
           Scenario.submissions Scenario.comments "kojied" 50
           (initial Scenario.empty_disk)).
  unfold credentials_present; simpl; auto.
Defined.

(** The events the fetcher adds to the log, one per listing it starts to
    read. *)
Lemma get_user_data_sends :
  forall (environ : Environ) (subs : string -> list (yield Submission))
         (coms : string -> list (yield RedditComment))
         (username : string) (limit : nat) (st : state),
    credentials_present environ ->
    0 < limit ->
    requests (snd (get_user_data environ subs coms username limit st))
    = (requests st
       ++ ListingRequest Submissions username limit
          :: match snd (listing_new limit (subs username)) with
             | Some _ => []
             | None => [ListingRequest Comments username limit]
             end)%list.
Proof.
  intros environ subs coms username limit st (H1 & H2 & H3) L.
  unfold get_user_data, fetch_failed.
  cbn [forallb]. rewrite H1, H2, H3. cbn [andb negb].
  unfold bind, print, fetch_listing, send, ret.
  destruct limit as [|n]; [lia|].
  destruct (listing_new (S n) (subs username)) as [ss [e|]];
    destruct (listing_new (S n) (coms username)) as [cs [e'|]];
    cbn [printed sent requests snd]; rewrite <- ?app_assoc; reflexivity.
Qed.

(** X5. After an exception in the submissions loop the fetcher does not
    ask for the comments at all, and it never calls the completion API:
    among the events it adds to the log there is no request for the comments
    listing and no completion request. *)
Theorem get_user_data_stops_after_failed_submissions :
  forall (environ : Environ) (subs : string -> list (yield Submission))
         (coms : string -> list (yield RedditComment))
         (username : string) (limit : nat) (e : string) (st : state),
    credentials_present environ ->
    snd (listing_new limit (subs username)) = Some e ->
    exists rs,
      requests (snd (get_user_data environ subs coms username limit st))
      = (requests st ++ rs)%list
      /\ forall r, In r rs ->
           (forall name n, r <> ListingRequest Comments name n)
           /\ (forall text, r <> CompletionRequest text).
Proof.
  intros environ subs coms username limit e st C R.
  destruct limit as [|n]; [discriminate R|].
  exists [ListingRequest Submissions username (S n)]. split.
  - rewrite get_user_data_sends by (assumption || lia). now rewrite R.
  - intros r [<-|[]]. split; discriminate.
Qed.

Lemma get_user_data_stops_after_failed_submissions_witness :
  exists rs,
    requests (snd (get_user_data Scenario.configured Scenario.broken
                     Scenario.comments "kojied" 50
                     (initial Scenario.empty_disk)))
    = (requests (initial Scenario.empty_disk) ++ rs)%list
    /\ forall r, In r rs ->
         (forall name n, r <> ListingRequest Comments name n)
         /\ (forall text, r <> CompletionRequest text).
Proof.
  apply (get_user_data_stops_after_failed_submissions Scenario.configured
           Scenario.broken Scenario.comments "kojied" 50
           "received 404 HTTP response" (initial Scenario.empty_disk)).
  - unfold credentials_present; simpl; auto.
  - vm_compute; reflexivity.
Defined.

(** X6. When the fetch raises, the last two lines the fetcher prints are the
    diagnostic, which quotes the message of the exception, and nothing on
    disk has changed; what it returns is the pair of empty lists. *)
Theorem get_user_data_failure_diagnostic :
  forall (environ : Environ) (subs : string -> list (yield Submission))
         (coms : string -> list (yield RedditComment))
         (username : string) (limit : nat) (e : string) (st : state),
    credentials_present environ ->
    fetch_raises subs coms username limit e ->
    exists st',
      get_user_data environ subs coms username limit st
      = (Return ([], []), st')
      /\ files st' = files st
      /\ exists lines,
           stdout st' = (stdout st ++ lines ++ fetch_diagnostic e)%list.
Proof.
  intros environ subs coms username limit e st (H1 & H2 & H3) R.
  unfold get_user_data, fetch_failed, fetch_diagnostic.
  cbn [forallb]. rewrite H1, H2, H3. cbn [andb negb].
  unfold bind, print, fetch_listing, send, ret.
  unfold fetch_raises in R.
  destruct (listing_new limit (subs username)) as [ss [e1|]];
    destruct (listing_new limit (coms username)) as [cs [e2|]];
    cbn [snd] in R;
    destruct R as [R|[R1 R2]]; try discriminate;
    try (injection R as ->); try (injection R2 as ->);
    destruct limit; cbn [printed sent files stdout];
    (eexists; split; [reflexivity|]); (split; [reflexivity|]);
    cbn [printed sent files stdout]; rewrite <- !app_assoc; cbn [app];
    match goal with
    | |- exists _, (_ ++ [?a; _; _])%list = _ => exists [a]
    | |- exists _, (_ ++ [?a; ?b; _; _])%list = _ => exists [a; b]
    end; reflexivity.
Qed.

Lemma get_user_data_failure_diagnostic_witness :
  exists st',
    get_user_data Scenario.configured Scenario.submissions Scenario.broken
      "kojied" 50 (initial Scenario.empty_disk)
    = (Return ([], []), st')
    /\ files st' = files (initial Scenario.empty_disk)
    /\ exists lines,
         stdout st'
         = (stdout (initial Scenario.empty_disk) ++ lines
            ++ fetch_diagnostic "received 404 HTTP response")%list.
Proof.
  apply (get_user_data_failure_diagnostic Scenario.configured
           Scenario.submissions Scenario.broken "kojied" 50
           "received 404 HTTP response" (initial Scenario.empty_disk)).
  - unfold credentials_present; simpl; auto.
  - right. split; vm_compute; reflexivity.
Defined.

(** ** The generator *)

Lemma fold_left_joined {A : Type} (f : A -> string) (items : list A)
    (acc : string) :
  fold_left (fun acc x => acc ++ f x) items acc
  = acc ++ joined (map f items).
Proof.
  revert acc; induction items as [|x items IH]; intros acc; simpl.
  - now rewrite StrFacts.append_nil_r.
  - now rewrite IH, StrFacts.append_assoc.
Qed.

(** X7. The serialisation is the blocks of all the posts, in the order of the
    list, followed by the blocks of all the comments, in the order of the
    list: no block is dropped, repeated or reordered, and comments never
    come before posts. *)
Theorem serialize_in_order :
  forall (posts : list Post) (comments : list Comment),
    serialize posts comments
    = joined (map post_block posts) ++ joined (map comment_block comments).
Proof.
  intros posts comments. unfold serialize.
  rewrite !fold_left_joined. reflexivity.
Qed.

Lemma take_drop (n : nat) (s : string) : s = Str.take n s ++ drop n s.
Proof.
  revert s; induction n as [|n IH]; intros [|c s]; simpl; try reflexivity.
  now rewrite <- IH.
Qed.

Lemma length_drop (n : nat) (s : string) :
  String.length (drop n s) = String.length s - n.
Proof.
  revert s; induction n as [|n IH]; intros [|c s]; simpl; try reflexivity.
  apply IH.
Qed.

(** X8. Truncation cuts at the end only: the content block is a prefix of the
    serialisation, and what is lost is exactly the text beyond the first
    15000 characters, so nothing is lost when the serialisation is not
    longer than that. *)
Theorem content_for_llm_is_prefix :
  forall (posts : list Post) (comments : list Comment),
    serialize posts comments
    = content_for_llm posts comments ++ drop 15000 (serialize posts comments)
    /\ String.length (drop 15000 (serialize posts comments))
       = String.length (serialize posts comments) - 15000
    /\ (String.length (serialize posts comments) <= 15000 ->
        content_for_llm posts comments = serialize posts comments).
Proof.
  intros posts comments. rewrite content_for_llm_take, max_input_length_value.
  split; [apply take_drop|]. split; [apply length_drop|].
  apply StrFacts.take_all.
Qed.

Lemma content_for_llm_is_prefix_witness :
  content_for_llm [post_of_submission Scenario.text_post]
    [comment_of_rcomment Scenario.reply]
  = serialize [post_of_submission Scenario.text_post]
      [comment_of_rcomment Scenario.reply].
Proof.
  apply (proj2 (proj2 (content_for_llm_is_prefix
                         [post_of_submission Scenario.text_post]
                         [comment_of_rcomment Scenario.reply]))).
  apply Nat.leb_le. vm_compute; reflexivity.
Defined.

Lemma prompt_length : String.length prompt = 1670.
Proof. vm_compute; reflexivity. Qed.

(** X9. With the API key configured, [generate_persona] sends exactly one
    request; its text starts with the instruction template and is at most
    16670 characters long (the 1670 of the template and at most 15000 of
    content), whatever the posts and comments are. *)
Theorem generate_persona_prompt_bound :
  forall (environ : Environ) (cc : string -> completion)
         (posts : list Post) (comments : list Comment) (st : state),
    truthy (OPENAI_API_KEY environ) = true ->
    exists block,
      requests (snd (generate_persona environ cc posts comments st))
      = (requests st ++ [CompletionRequest (prompt ++ block)])%list
      /\ String.length (prompt ++ block) <= 16670.
Proof.
  intros environ cc posts comments st K.
  exists (content_for_llm posts comments). split.
  - rewrite generate_persona_eq by assumption. unfold requested.
    destruct (max_input_length <? String.length (serialize posts comments))%nat;
      destruct (cc (prompt ++ content_for_llm posts comments));
      reflexivity.
  - rewrite StrFacts.length_append, prompt_length.
    pose proof (content_for_llm_length posts comments) as L.
    rewrite max_input_length_value in L.
    assert (S : 1670 + 15000 = 16670) by (vm_compute; reflexivity).
    rewrite <- S. apply Nat.add_le_mono_l. exact L.
Qed.

Lemma generate_persona_prompt_bound_witness :
  exists block,
    requests (snd (generate_persona Scenario.configured Scenario.persona_api
                     [post_of_submission Scenario.long_post] []
                     (initial Scenario.empty_disk)))
    = (requests (initial Scenario.empty_disk)
       ++ [CompletionRequest (prompt ++ block)])%list
    /\ String.length (prompt ++ block) <= 16670.
Proof.
  apply (generate_persona_prompt_bound Scenario.configured).
  vm_compute; reflexivity.
Defined.

(** X10. When the completion request fails, [generate_persona] returns no
    persona: it ends the run with status 1 after the request went out, the
    last lines printed being the diagnostic that quotes the error, and
    nothing on disk has changed. *)
Theorem generate_persona_failure :
  forall (environ : Environ) (cc : string -> completion)
         (posts : list Post) (comments : list Comment) (e : string)
         (st : state),
    truthy (OPENAI_API_KEY environ) = true ->
    (cc (prompt ++ content_for_llm posts comments) = OpenAIError e ->
     exists st' lines,
       generate_persona environ cc posts comments st = (SysExit 1, st')
       /\ files st' = files st
       /\ stdout st'
          = (stdout st ++ lines
             ++ [("An error occurred with the OpenAI API: " ++ e)%string;
                 "Please check your API key, subscription status, and try again."])%list)
    /\ (cc (prompt ++ content_for_llm posts comments) = OtherException e ->
        exists st' lines,
          generate_persona environ cc posts comments st = (SysExit 1, st')
          /\ files st' = files st
          /\ stdout st'
             = (stdout st ++ lines
                ++ [("An unexpected error occurred during persona generation: "
                     ++ e)%string])%list).
Proof.
  intros environ cc posts comments e st K.
  destruct (prints_after_requested posts comments st) as [[ls P] F].
  split; intros A; rewrite generate_persona_eq, A by assumption;
    eexists; exists ls; (split; [reflexivity|]);
    cbn [printed files stdout]; rewrite F, P, <- !app_assoc;
    split; reflexivity.
Qed.

Lemma generate_persona_failure_witness :
  exists st' lines,
    generate_persona Scenario.configured
      (fun _ => OpenAIError "quota exceeded")
      [post_of_submission Scenario.text_post] []
      (initial Scenario.empty_disk)
    = (SysExit 1, st')
    /\ files st' = files (initial Scenario.empty_disk)
    /\ stdout st'
       = (stdout (initial Scenario.empty_disk) ++ lines
          ++ ["An error occurred with the OpenAI API: quota exceeded";
              "Please check your API key, subscription status, and try again."])%list.
Proof.
  refine (proj1 (generate_persona_failure Scenario.configured
                   (fun _ => OpenAIError "quota exceeded")
                   [post_of_submission Scenario.text_post] [] "quota exceeded"
                   (initial Scenario.empty_disk) _) _).
  - vm_compute; reflexivity.
  - vm_compute; reflexivity.
Defined.

(** ** The writer *)

Lemma append_inj_r (a b c : string) : a ++ c = b ++ c -> a = b.
Proof.
  intros H. apply (StrFacts.append_eq_length a c b c H).
  apply (f_equal String.length) in H.
  rewrite !StrFacts.length_append in H. lia.
Qed.

Lemma persona_file_inj (u1 u2 : string) :
  persona_file u1 = persona_file u2 -> u1 = u2.
Proof. apply append_inj_r. Qed.

(** X11. Personas of different users never share a file: the file names of
    two different user names differ, and saving a persona for one user,
    whether the write succeeds or fails, leaves the file of the other as it
    was. *)
Theorem save_persona_keeps_other_users :
  forall (ow : string -> string -> io_outcome)
         (u1 u2 persona_text : string) (st : state),
    u1 <> u2 ->
    u1 ++ "_persona.txt" <> u2 ++ "_persona.txt"
    /\ files (snd (save_persona ow u2 persona_text st))
         (u1 ++ "_persona.txt")
       = files st (u1 ++ "_persona.txt").
Proof.
  intros ow u1 u2 persona_text st N.
  assert (D : persona_file u1 <> persona_file u2).
  { intros H. apply N. now apply persona_file_inj. }
  split; [exact D|]. rewrite save_persona_eq. fold (persona_file u1).
  destruct (ow (persona_file u2) persona_text) as [|e [content|]];
    cbn [snd printed files]; try reflexivity;
    now apply set_file_lookup.
Qed.

Lemma save_persona_keeps_other_users_witness :
  "kojied" ++ "_persona.txt" <> "spez" ++ "_persona.txt"
  /\ files (snd (save_persona Scenario.writable "spez" "PERSONA_TEXT"
                   (initial (fun _ => Some "an older persona"))))
       ("kojied" ++ "_persona.txt")
     = files (initial (fun _ => Some "an older persona"))
         ("kojied" ++ "_persona.txt").
Proof.
  apply save_persona_keeps_other_users. discriminate.
Defined.

(** X12. When the write raises an [IOError], [save_persona] ends the run
    with status 1; the last line printed names the file and quotes the
    error, no success line is printed, no request is sent and no other file
    changes. *)
Theorem save_persona_failure :
  forall (ow : string -> string -> io_outcome)
         (username persona_text e : string) (damage : option (option string))
         (st : state),
    ow (username ++ "_persona.txt") persona_text = IoError e damage ->
    exists st',
      save_persona ow username persona_text st = (SysExit 1, st')
      /\ stdout st'
         = (stdout st
            ++ [("Error saving persona to file " ++ username
                 ++ "_persona.txt" ++ ": " ++ e)%string])%list
      /\ requests st' = requests st
      /\ forall other, other <> username ++ "_persona.txt" ->
           files st' other = files st other.
Proof.
  intros ow username persona_text e damage st W.
  rewrite save_persona_eq. unfold persona_file. rewrite W.
  eexists. split; [reflexivity|].
  destruct damage as [content|]; cbn [printed stdout requests files snd set_file];
    (split; [rewrite <- ?StrFacts.append_assoc; reflexivity|]);
    (split; [reflexivity|]); intros other N; [|reflexivity].
  apply String.eqb_neq in N. now rewrite N.
Qed.

Lemma save_persona_failure_witness :
  exists st',
    save_persona (fun _ _ => IoError "Permission denied" None)
      "kojied" "PERSONA_TEXT" (initial Scenario.empty_disk)
    = (SysExit 1, st')
    /\ stdout st'
       = (stdout (initial Scenario.empty_disk)
          ++ [("Error saving persona to file " ++ "kojied"
               ++ "_persona.txt" ++ ": " ++ "Permission denied")%string])%list
    /\ requests st' = requests (initial Scenario.empty_disk)
    /\ forall other, other <> "kojied" ++ "_persona.txt" ->
         files st' other = files (initial Scenario.empty_disk) other.
Proof.
  apply (save_persona_failure (fun _ _ => IoError "Permission denied" None)
           "kojied" "PERSONA_TEXT" "Permission denied" None).
  vm_compute; reflexivity.
Defined.

(** ** The whole run *)

(** The events of a whole run, in the order in which they are logged. *)
Lemma main_sends :
  forall (environ : Environ) (stdin : string)
         (subs : string -> list (yield Submission))
         (coms : string -> list (yield RedditComment))
         (cc : string -> completion) (ow : string -> string -> io_outcome)
         (username : string) (posts : list Post) (comments : list Comment)
         (st : state),
    extract_username (Str.strip stdin) = Some username ->
    credentials_present environ ->
    fetched subs coms username 50 = (posts, comments) ->
    traffic environ stdin subs coms cc ow st
    = (requests st
       ++ ListingRequest Submissions username 50
          :: match snd (listing_new 50 (subs username)) with
             | Some _ => []
             | None =>
                 ListingRequest Comments username 50
                 :: (if no_data (posts, comments)
                        || negb (truthy (OPENAI_API_KEY environ))
                     then []
                     else [CompletionRequest
                             (prompt ++ content_for_llm posts comments)])
             end)%list.
Proof.
  intros environ stdin subs coms cc ow username posts comments st U C F.
  unfold traffic. rewrite (main_unfold _ _ _ _ _ _ username st U).
  pose proof (get_user_data_sends environ subs coms username 50
                (started username st) C ltac:(lia)) as R.
  destruct (get_user_data_returns environ subs coms username 50
              (started username st) C) as (st1 & rs & lines & E & _).
  rewrite E in R |- *. cbn [snd] in R. rewrite F.
  change (requests (started username st)) with (requests st) in R.
  assert (D : snd (listing_new 50 (subs username)) <> None ->
              no_data (posts, comments) = true).
  { unfold fetched in F. destruct (listing_new 50 (subs username))
      as [ss [e|]]; [|easy].
    destruct (listing_new 50 (coms username)) as [cs [e'|]];
      injection F as <- <-; reflexivity. }
  destruct (no_data (posts, comments)) eqn:N.
  { cbn [snd printed requests orb]. rewrite R.
    destruct (snd (listing_new 50 (subs username))); reflexivity. }
  destruct (snd (listing_new 50 (subs username))) as [e|].
  { discriminate D. discriminate. }
  cbn [orb]. destruct (truthy (OPENAI_API_KEY environ)) eqn:K; cbn [negb].
  2: { rewrite generate_persona_no_key by assumption.
       cbn [snd printed generating requests]. exact R. }
  rewrite generate_persona_eq by assumption.
  assert (Q : requests (requested posts comments (generating st1))
              = (requests st
                 ++ [ListingRequest Submissions username 50;
                     ListingRequest Comments username 50;
                     CompletionRequest
                       (prompt ++ content_for_llm posts comments)])%list).
  { unfold requested.
    destruct (max_input_length <? String.length (serialize posts comments))%nat;
      cbn [sent printed generating requests]; rewrite R, <- app_assoc;
      reflexivity. }
  destruct (cc (prompt ++ content_for_llm posts comments)) as [[|a t]|e|e];
    try (cbn [snd printed requests]; exact Q).
  rewrite save_persona_eq.
  destruct (ow (persona_file username) (String a t)) as [|e [content|]];
    cbn [snd printed set_file requests]; exact Q.
Qed.

(** X13. In a run with a valid URL and the platform credentials configured,
    the completion API is called at most once, after everything that is
    asked of the platform and never before it; it is called exactly when
    some data was fetched and the API key is configured, and then with the
    prompt built from that data. *)
Theorem main_completion_request_is_last :
  forall (environ : Environ) (stdin : string)
         (subs : string -> list (yield Submission))
         (coms : string -> list (yield RedditComment))
         (cc : string -> completion) (ow : string -> string -> io_outcome)
         (username : string) (posts : list Post) (comments : list Comment)
         (st : state),
    extract_username (Str.strip stdin) = Some username ->
    credentials_present environ ->
    fetched subs coms username 50 = (posts, comments) ->
    exists rs,
      traffic environ stdin subs coms cc ow st
      = (requests st ++ rs
         ++ (if no_data (posts, comments)
                || negb (truthy (OPENAI_API_KEY environ))
             then []
             else [CompletionRequest
                     (prompt ++ content_for_llm posts comments)]))%list
      /\ listing_requests rs.
Proof.
  intros environ stdin subs coms cc ow username posts comments st U C F.
  rewrite (main_sends _ _ _ _ _ _ username posts comments st U C F).
  destruct (snd (listing_new 50 (subs username))) as [e|] eqn:R.
  - assert (D : no_data (posts, comments) = true).
    { unfold fetched in F.
      destruct (listing_new 50 (subs username)) as [ss [e1|]];
        [|discriminate R].
      destruct (listing_new 50 (coms username)) as [cs [e2|]];
        injection F as <- <-; reflexivity. }
    rewrite D. exists [ListingRequest Submissions username 50].
    split; [reflexivity | repeat constructor; eauto].
  - exists [ListingRequest Submissions username 50;
            ListingRequest Comments username 50].
    split; [reflexivity | repeat constructor; eauto].
Qed.

Lemma main_completion_request_is_last_witness :
  exists rs,
    traffic Scenario.configured Scenario.profile Scenario.submissions
      Scenario.comments Scenario.persona_api Scenario.writable
      (initial Scenario.empty_disk)
    = (requests (initial Scenario.empty_disk) ++ rs
       ++ (if no_data (map post_of_submission
                         [Scenario.text_post; Scenario.link_post],
                       map comment_of_rcomment [Scenario.reply])
              || negb (truthy (OPENAI_API_KEY Scenario.configured))
           then []
           else [CompletionRequest
                   (prompt ++ content_for_llm
                                (map post_of_submission
                                   [Scenario.text_post; Scenario.link_post])
                                (map comment_of_rcomment
                                   [Scenario.reply]))]))%list
    /\ listing_requests rs.
Proof.
  apply (main_completion_request_is_last Scenario.configured Scenario.profile
           Scenario.submissions Scenario.comments Scenario.persona_api
           Scenario.writable "kojied"
           (map post_of_submission [Scenario.text_post; Scenario.link_post])
           (map comment_of_rcomment [Scenario.reply])
           (initial Scenario.empty_disk)).
  - vm_compute; reflexivity.
  - unfold credentials_present; simpl; auto.
  - vm_compute; reflexivity.
Defined.

Lemma main_files (environ : Environ) (stdin : string)
    (subs : string -> list (yield Submission))
    (coms : string -> list (yield RedditComment))
    (cc : string -> completion) (ow : string -> string -> io_outcome)
    (username : string) (st : state) :
  extract_username (Str.strip stdin) = Some username ->
  forall other, other <> persona_file username ->
    files (snd (main environ stdin subs coms cc ow st)) other
    = files st other.
Proof.
  intros U other N. rewrite (main_unfold _ _ _ _ _ _ username st U).
  destruct (has_credentials environ) eqn:C.
  2: { apply has_credentials_false in C.
       now rewrite get_user_data_no_credentials. }
  apply has_credentials_iff in C.
  destruct (get_user_data_returns environ subs coms username 50
              (started username st) C) as (st1 & rs & lines & E & Fi & _).
  rewrite E. destruct (fetched subs coms username 50) as [posts comments].
  change (files (started username st)) with (files st) in Fi.
  destruct (no_data (posts, comments)).
  { cbn [snd printed files]. now rewrite Fi. }
  destruct (truthy (OPENAI_API_KEY environ)) eqn:K.
  2: { rewrite generate_persona_no_key by (now rewrite K).
       cbn [snd printed generating files]. now rewrite Fi. }
  rewrite generate_persona_eq by assumption.
  destruct (prints_after_requested posts comments (generating st1))
    as [_ Fr]. cbn [generating printed files] in Fr.
  destruct (cc (prompt ++ content_for_llm posts comments)) as [[|a t]|e|e];
    try (cbn [snd printed files]; now rewrite Fr, Fi).
  rewrite save_persona_eq.
  destruct (ow (persona_file username) (String a t)) as [|e [content|]];
    cbn [snd printed files];
    try (rewrite (proj2 (set_file_lookup _ _ _) other N));
    now rewrite Fr, Fi.
Qed.

(** X14. A run touches at most one file.  With an invalid URL nothing on
    disk changes; otherwise every file other than [<username>_persona.txt],
    for the user name extracted from the URL, is after the run what it was
    before, however the run ends. *)
Theorem main_touches_one_file :
  forall (environ : Environ) (stdin : string)
         (subs : string -> list (yield Submission))
         (coms : string -> list (yield RedditComment))
         (cc : string -> completion) (ow : string -> string -> io_outcome)
         (st : state),
    (extract_username (Str.strip stdin) = None ->
     files (snd (main environ stdin subs coms cc ow st)) = files st)
    /\ (forall username other,
          extract_username (Str.strip stdin) = Some username ->
          other <> username ++ "_persona.txt" ->
          files (snd (main environ stdin subs coms cc ow st)) other
          = files st other).
Proof.
  intros environ stdin subs coms cc ow st. split.
  - intros U. now rewrite main_invalid_url.
  - intros username other U N. now apply (main_files _ _ _ _ _ _ username).
Qed.

Lemma main_touches_one_file_witness :
  files (snd (main Scenario.configured Scenario.profile Scenario.submissions
                Scenario.comments Scenario.persona_api Scenario.writable
                (initial Scenario.empty_disk))) "notes.txt"
  = files (initial Scenario.empty_disk) "notes.txt".
Proof.
  apply (proj2 (main_touches_one_file Scenario.configured Scenario.profile
                  Scenario.submissions Scenario.comments Scenario.persona_api
                  Scenario.writable (initial Scenario.empty_disk))
           "kojied" "notes.txt").
  - vm_compute; reflexivity.
  - discriminate.
Defined.

(** X15. The status 0 of [sys.exit(0)] means that nothing was generated: a
    run that exits that way had a valid URL, sent listing requests only,
    never called the completion API, changed nothing on disk, and printed
    the no-data message as its last line. *)
Theorem graceful_exit_generates_nothing :
  forall (environ : Environ) (stdin : string)
         (subs : string -> list (yield Submission))
         (coms : string -> list (yield RedditComment))
         (cc : string -> completion) (ow : string -> string -> io_outcome)
         (st : state),
    ending environ stdin subs coms cc ow st = SysExit 0 ->
    exists username rs lines,
      extract_username (Str.strip stdin) = Some username
      /\ traffic environ stdin subs coms cc ow st = (requests st ++ rs)%list
      /\ listing_requests rs
      /\ files (snd (main environ stdin subs coms cc ow st)) = files st
      /\ stdout (snd (main environ stdin subs coms cc ow st))
         = (stdout st ++ lines ++ [no_data_message username])%list.
Proof.
  intros environ stdin subs coms cc ow st. unfold ending, traffic.
  destruct (extract_username (Str.strip stdin)) as [username|] eqn:U.
  2: { rewrite main_invalid_url by assumption. discriminate. }
  rewrite (main_unfold _ _ _ _ _ _ username st U).
  destruct (has_credentials environ) eqn:C.
  2: { apply has_credentials_false in C.
       rewrite get_user_data_no_credentials by assumption. discriminate. }
  apply has_credentials_iff in C.
  destruct (get_user_data_returns environ subs coms username 50
              (started username st) C)
    as (st1 & rs & lines & E & Fi & R & L & O).
  rewrite E. destruct (fetched subs coms username 50) as [posts comments].
  destruct (no_data (posts, comments)).
  - intros _. destruct (prints_after_started username st) as [l0 P].
    exists username, rs, (l0 ++ lines)%list.
    cbn [snd printed requests files stdout].
    rewrite R, Fi, O, P, <- !app_assoc. repeat split; auto.
  - destruct (truthy (OPENAI_API_KEY environ)) eqn:K.
    2: { rewrite generate_persona_no_key by (now rewrite K). discriminate. }
    rewrite generate_persona_eq by assumption.
    destruct (cc (prompt ++ content_for_llm posts comments)) as [[|a t]|e|e];
      try discriminate.
    rewrite save_persona_eq.
    destruct (ow (persona_file username) (String a t)); discriminate.
Qed.

Lemma graceful_exit_generates_nothing_witness :
  exists username rs lines,
    extract_username (Str.strip Scenario.profile) = Some username
    /\ traffic Scenario.configured Scenario.profile Scenario.nothing
         Scenario.nothing Scenario.persona_api Scenario.writable
         (initial Scenario.empty_disk)
       = (requests (initial Scenario.empty_disk) ++ rs)%list
    /\ listing_requests rs
    /\ files (snd (main Scenario.configured Scenario.profile
                     Scenario.nothing Scenario.nothing Scenario.persona_api
                     Scenario.writable (initial Scenario.empty_disk)))
       = files (initial Scenario.empty_disk)
    /\ stdout (snd (main Scenario.configured Scenario.profile
                      Scenario.nothing Scenario.nothing Scenario.persona_api
                      Scenario.writable (initial Scenario.empty_disk)))
       = (stdout (initial Scenario.empty_disk) ++ lines
          ++ [no_data_message username])%list.
Proof.
  apply (graceful_exit_generates_nothing Scenario.configured Scenario.profile
           Scenario.nothing Scenario.nothing Scenario.persona_api
           Scenario.writable (initial Scenario.empty_disk)).
  vm_compute; reflexivity.
Defined.

(** X16. [main] returns normally only after the whole pipeline ran: the URL
    was valid, the credentials and the API key were configured, some data
    was fetched, the completion API answered with a text, and that text was
    either empty or written without error. *)
Theorem main_returns_only_after_generation :
  forall (environ : Environ) (stdin : string)
         (subs : string -> list (yield Submission))
         (coms : string -> list (yield RedditComment))
         (cc : string -> completion) (ow : string -> string -> io_outcome)
         (st : state),
    ending environ stdin subs coms cc ow st = Return tt ->
    exists username posts comments persona,
      extract_username (Str.strip stdin) = Some username
      /\ credentials_present environ
      /\ fetched subs coms username 50 = (posts, comments)
      /\ no_data (posts, comments) = false
      /\ truthy (OPENAI_API_KEY environ) = true
      /\ cc (prompt ++ content_for_llm posts comments) = Content persona
      /\ (persona = ""
          \/ ow (username ++ "_persona.txt") persona = IoOk).
Proof.
  intros environ stdin subs coms cc ow st. unfold ending.
  rewrite main_outcome. unfold outcome, persona_file.
  destruct (extract_username (Str.strip stdin)) as [username|];
    [|discriminate].
  destruct (has_credentials environ) eqn:C; cbn [negb]; [|discriminate].
  apply has_credentials_iff in C.
  destruct (fetched subs coms username 50) as [posts comments] eqn:F.
  destruct (no_data (posts, comments)) eqn:N; [discriminate|].
  destruct (truthy (OPENAI_API_KEY environ)) eqn:K; cbn [negb];
    [|discriminate].
  destruct (cc (prompt ++ content_for_llm posts comments))
    as [[|a t]|e|e] eqn:A; try discriminate.
  - intros _. exists username, posts, comments, "".
    repeat (split; [first [reflexivity | assumption]|]). now left.
  - destruct (ow (username ++ "_persona.txt") (String a t)) eqn:W;
      [|discriminate].
    intros _. exists username, posts, comments, (String a t).
    repeat (split; [first [reflexivity | assumption]|]). now right.
Qed.

Lemma main_returns_only_after_generation_witness :
  exists username posts comments persona,
    extract_username (Str.strip Scenario.profile) = Some username
    /\ credentials_present Scenario.configured
    /\ fetched Scenario.submissions Scenario.comments username 50
       = (posts, comments)
    /\ no_data (posts, comments) = false
    /\ truthy (OPENAI_API_KEY Scenario.configured) = true
    /\ Scenario.persona_api (prompt ++ content_for_llm posts comments)
       = Content persona
    /\ (persona = ""
        \/ Scenario.writable (username ++ "_persona.txt") persona = IoOk).
Proof.
  apply (main_returns_only_after_generation Scenario.configured
           Scenario.profile Scenario.submissions Scenario.comments
           Scenario.persona_api Scenario.writable
           (initial Scenario.empty_disk)).
  vm_compute; reflexivity.
Defined.

(** ** Configuration values and citations *)

(** X17. A configuration value set to the empty string counts as missing:
    with an empty client id, client secret or user agent [get_user_data]
    ends the run with status 1 before sending anything, and with an empty
    API key [generate_persona] does. *)
Theorem empty_configuration_value_is_missing :
  forall (environ : Environ),
    (REDDIT_CLIENT_ID environ = Some ""
     \/ REDDIT_CLIENT_SECRET environ = Some ""
     \/ REDDIT_USER_AGENT environ = Some "" ->
     forall (subs : string -> list (yield Submission))
            (coms : string -> list (yield RedditComment))
            (username : string) (limit : nat) (st : state),
       fst (get_user_data environ subs coms username limit st) = SysExit 1
       /\ requests (snd (get_user_data environ subs coms username limit st))
          = requests st)
    /\ (OPENAI_API_KEY environ = Some "" ->
        forall (cc : string -> completion) (posts : list Post)
               (comments : list Comment) (st : state),
          fst (generate_persona environ cc posts comments st) = SysExit 1
          /\ requests (snd (generate_persona environ cc posts comments st))
             = requests st).
Proof.
  intros environ. split.
  - intros H subs coms username limit st.
    rewrite get_user_data_no_credentials; [split; reflexivity|].
    intros (H1 & H2 & H3).
    destruct H as [H|[H|H]]; rewrite H in *; discriminate.
  - intros H cc posts comments st.
    rewrite generate_persona_no_key by (now rewrite H).
    split; reflexivity.
Qed.

Lemma empty_configuration_value_is_missing_witness :
  (fst (get_user_data Scenario.blank_client_id Scenario.submissions
          Scenario.comments "kojied" 50 (initial Scenario.empty_disk))
   = SysExit 1
   /\ requests (snd (get_user_data Scenario.blank_client_id
                       Scenario.submissions Scenario.comments "kojied" 50
                       (initial Scenario.empty_disk)))
      = requests (initial Scenario.empty_disk))
  /\ (fst (generate_persona Scenario.blank_client_id Scenario.persona_api
             [post_of_submission Scenario.text_post] []
             (initial Scenario.empty_disk))
      = SysExit 1
      /\ requests (snd (generate_persona Scenario.blank_client_id
                          Scenario.persona_api
                          [post_of_submission Scenario.text_post] []
                          (initial Scenario.empty_disk)))
         = requests (initial Scenario.empty_disk)).
Proof.
  split.
  - apply (proj1 (empty_configuration_value_is_missing
                    Scenario.blank_client_id)).
    left. reflexivity.
  - apply (proj2 (empty_configuration_value_is_missing
                    Scenario.blank_client_id)).
    reflexivity.
Defined.



